(** * StatsStore: the daily usage-statistics store of the desktop app

    A shallow embedding of [app/src/lib/stats/stats-store.ts] and the
    properties of its report cycle: eligibility, aggregation, submission and
    the commit counter.

    Conventions of the embedding.
    - A TypeScript [number] that may be fractional or not-a-number is a
      [number]: a rational, one of the two infinities, or [NaN].  Addition
      and division, which the aggregation uses, round their exact result to
      binary64 (to nearest, ties to even, overflow to an infinity), by the
      Standard Library's reference model of IEEE 754, [SpecFloat].  The two
      zeros of binary64 are not told apart.
    - A [number] that the program only ever uses as an integer (a reading of
      [Date.now()], a commit count, a primary key) is a [Z].  Readings of
      [Date.now()] lie within the ECMAScript time range, where binary64 is
      exact, so that subtracting and comparing them is exact, and where
      [toString] prints plain decimal digits.
    - A JavaScript string is a [string]; each character is one code unit in
      the range 0..255.
    - [async]/[await] is sequential composition in the monad [M]; a rejected
      promise is a thrown exception. *)

From Stdlib Require Import ZArith QArith Qfield Lia List Ascii String.
From Stdlib Require Import Decimal DecimalString DecimalZ DecimalN DecimalPos.
From Stdlib Require Import SpecFloat.
From stdpp Require Import base option list gmap strings.

Set Default Proof Using "Type".
Local Open Scope Z_scope.

(* ===================================================================== *)
(** * JavaScript numbers *)
(* ===================================================================== *)

Module JS.

Inductive number : Type :=
| NaN
| PosInfinity
| NegInfinity
| Fin (q : Q).

(** An integer seen as a [number]. *)
Definition Int (z : Z) : number := Fin (inject_Z z).

Definition isNaN (x : number) : bool :=
  match x with NaN => true | _ => false end.

(** The value of a binary64 number of [SpecFloat]. *)
Definition ofSF (x : spec_float) : number :=
  match x with
  | S754_zero _ => Fin 0
  | S754_infinity false => PosInfinity
  | S754_infinity true => NegInfinity
  | S754_nan => NaN
  | S754_finite s m e =>
      let v := match e with
               | Zneg p => Qred (Zpos m # Pos.pow 2 p)
               | _ => inject_Z (Zpos m * 2 ^ e)
               end in
      Fin (if s then Qopp v else v)
  end.

(** An integer as an operand of [SpecFloat], with exponent 0. *)
Definition toSF (z : Z) : spec_float :=
  match z with
  | Z0 => S754_zero false
  | Zpos p => S754_finite false p 0
  | Zneg p => S754_finite true p 0
  end.

(** The binary64 number nearest to the rational [q], ties to even; an
    infinity when [q] is out of range.  The rounding is the one that
    [SFdiv] performs on the quotient of the numerator by the denominator. *)
Definition round64 (q : Q) : number :=
  let r := Qred q in
  ofSF (SFdiv 53 1024 (toSF (Qnum r)) (toSF (Zpos (Qden r)))).

(** [x + y]: on finite operands, the exact sum rounded to binary64. *)
Definition add (x y : number) : number :=
  match x, y with
  | NaN, _ | _, NaN => NaN
  | PosInfinity, NegInfinity | NegInfinity, PosInfinity => NaN
  | PosInfinity, _ | _, PosInfinity => PosInfinity
  | NegInfinity, _ | _, NegInfinity => NegInfinity
  | Fin a, Fin b => round64 (a + b)
  end.

(** [x - y]; exact, for the integers within the time range on which the
    store uses it. *)
Definition sub (x y : number) : number :=
  match x, y with
  | NaN, _ | _, NaN => NaN
  | PosInfinity, PosInfinity | NegInfinity, NegInfinity => NaN
  | PosInfinity, _ | _, NegInfinity => PosInfinity
  | NegInfinity, _ | _, PosInfinity => NegInfinity
  | Fin a, Fin b => Fin (a - b)
  end.

Definition Qsign (a : Q) : comparison := (Qnum a ?= 0)%Z.

(** [x / y]: on finite operands, the exact quotient rounded to binary64.
    A zero divisor is not an error in JavaScript: [0 / 0] is [NaN] and a
    non-zero finite value over zero is an infinity. *)
Definition div (x y : number) : number :=
  match x, y with
  | NaN, _ | _, NaN => NaN
  | Fin a, Fin b =>
      match Qsign b with
      | Eq => match Qsign a with
              | Eq => NaN
              | Gt => PosInfinity
              | Lt => NegInfinity
              end
      | _ => round64 (a / b)
      end
  | Fin a, _ => Fin 0
  | PosInfinity, Fin b =>
      match Qsign b with Lt => NegInfinity | _ => PosInfinity end
  | NegInfinity, Fin b =>
      match Qsign b with Lt => PosInfinity | _ => NegInfinity end
  | _, _ => NaN
  end.

(** [x > y]; every comparison with [NaN] is false. *)
Definition gt (x y : number) : bool :=
  match x, y with
  | NaN, _ | _, NaN => false
  | PosInfinity, PosInfinity => false
  | PosInfinity, _ => true
  | _, PosInfinity => false
  | NegInfinity, _ => false
  | Fin _, NegInfinity => true
  | Fin a, Fin b => negb (Qle_bool a b)
  end.

(** [x] is the finite value [q]. *)
Definition is_value (x : number) (q : Q) : Prop :=
  match x with Fin p => p == q | _ => False end.

(* --------------------------------------------------------------------- *)
(** ** Strings and [parseInt] *)
(* --------------------------------------------------------------------- *)

(** White space and line terminators skipped by [parseInt], among the code
    units 0..255: TAB, LF, VT, FF, CR, SP and NBSP. *)
Definition isWhiteSpace (c : ascii) : bool :=
  let n := N_of_ascii c in
  (N.eqb n 9 || N.eqb n 10 || N.eqb n 11 || N.eqb n 12 || N.eqb n 13
   || N.eqb n 32 || N.eqb n 160)%bool.

Fixpoint trimStart (s : string) : string :=
  match s with
  | String c rest => if isWhiteSpace c then trimStart rest else s
  | EmptyString => s
  end.

(** The value of a decimal digit, if [c] is one. *)
Definition digitValue (c : ascii) : option Z :=
  let n := N_of_ascii c in
  if (N.leb 48 n && N.leb n 57)%bool then Some (Z.of_N n - 48) else None.

(** The longest prefix of decimal digits of [s], read from left to right
    on top of [acc]; [None] as long as no digit was read. *)
Fixpoint readDigits (s : string) (acc : option Z) : option Z :=
  match s with
  | String c rest =>
      match digitValue c with
      | Some d => readDigits rest (Some (10 * default 0 acc + d))
      | None => acc
      end
  | EmptyString => acc
  end.

(** [parseInt(s, 10)]: leading white space is skipped, one sign is
    accepted, then the longest run of decimal digits is read and whatever
    follows is ignored; with no digit at all the result is [NaN]. *)
Definition parseInt10 (s : string) : number :=
  let s := trimStart s in
  let '(sign, s) :=
    match s with
    | String "-"%char rest => (-1, rest)
    | String "+"%char rest => (1, rest)
    | _ => (1, s)
    end in
  match readDigits s None with
  | Some n => Int (sign * n)
  | None => NaN
  end.

(** [n.toString()] of an integer [n] below 10^21 in magnitude, as every
    reading of [Date.now()] is: its decimal digits, with a leading minus
    sign when negative. *)
Definition toString (n : Z) : string :=
  NilZero.string_of_int (Z.to_int n).

(** Truthiness of a [string | null] or [string | undefined] value. *)
Definition truthy (s : option string) : bool :=
  match s with
  | Some (String _ _) => true
  | _ => false
  end.

(** A property value of a plain object. *)
Inductive value : Type :=
| VString (s : string)
| VNumber (n : number).

End JS.

(* ===================================================================== *)
(** * The stats database *)
(* ===================================================================== *)

(** Modelled from the spec: [ILaunchStats] of [stats-database.ts], the
    timing stats of one app launch, with the three fields that the store
    reads and writes. *)
Record ILaunchStats : Type := {
  mainReadyTime : JS.number;
  loadTime : JS.number;
  rendererReadyTime : JS.number;
}.

(** Modelled from the spec: [IDailyDimensions] of [stats-database.ts], the
    daily counters: the row's primary key, absent on an object that does
    not carry it, and the commit count. *)
Record IDailyDimensions : Type := {
  id : option Z;
  commits : Z;
}.

(** Modelled from the spec: the table [dailyDimensions] of [StatsDatabase]
    ([stats-database.ts]), a Dexie table with generated keys.  How its
    primary key is declared is not in the source, so it is a field of the
    table: in-line ([++id], the key is the property [id] of the stored
    object) or out-of-line ([++], the key is kept beside the object).  The
    rows are kept by ascending primary key, each with the commit count of
    its object; the key generator remembers the greatest key so far. *)
Record DimensionsTable : Type := {
  inlineKey : bool;
  rows : list (Z * Z);
  lastKey : Z;
}.

Record StatsDatabase : Type := {
  launches : list ILaunchStats;
  dailyDimensions : DimensionsTable;
}.

Module Table.

(** Insert or replace the row of key [k], keeping the keys ascending. *)
Fixpoint upsert (k v : Z) (l : list (Z * Z)) : list (Z * Z) :=
  match l with
  | [] => [(k, v)]
  | (k', v') :: rest =>
      if k <? k' then (k, v) :: l
      else if k =? k' then (k, v) :: rest
      else (k', v') :: upsert k v rest
  end.

(** Modelled from the spec: [table.limit(1).first()], the single
    DailyCounters row or nothing.  The object read carries its key as [id]
    only when the key is in-line. *)
Definition first (t : DimensionsTable) : option IDailyDimensions :=
  match rows t with
  | [] => None
  | (k, c) :: _ =>
      Some {| id := if inlineKey t then Some k else None; commits := c |}
  end.

Definition withRows (l : list (Z * Z)) (last : Z) (t : DimensionsTable)
    : DimensionsTable :=
  {| inlineKey := inlineKey t; rows := l; lastKey := last |}.

(** Modelled from the spec: [table.put(item, key)], the upsert by identity
    of a Dexie table; [None] when the call fails with [DataError].
    - In-line key: an explicit [key] is refused ([DataError]); the key is
      the [id] of [item], or a generated one when [item] has none.
    - Out-of-line key: the row of the explicit [key] is replaced or
      created; without a [key] a new row is created under a generated
      key. *)
Definition put (item : IDailyDimensions) (key : option Z)
    (t : DimensionsTable) : option DimensionsTable :=
  let generated := lastKey t + 1 in
  if inlineKey t then
    match key, id item with
    | Some _, _ => None
    | None, Some k =>
        Some (withRows (upsert k (commits item) (rows t)) (Z.max (lastKey t) k) t)
    | None, None =>
        Some (withRows (upsert generated (commits item) (rows t)) generated t)
    end
  else
    match key with
    | Some k =>
        Some (withRows (upsert k (commits item) (rows t)) (Z.max (lastKey t) k) t)
    | None =>
        Some (withRows (upsert generated (commits item) (rows t)) generated t)
    end.

(** An empty table whose key is in-line, as the store reads [id] off the
    row. *)
Definition empty : DimensionsTable :=
  {| inlineKey := true; rows := []; lastKey := 0 |}.

(** An empty table whose key is out-of-line. *)
Definition emptyOutOfLine : DimensionsTable :=
  {| inlineKey := false; rows := []; lastKey := 0 |}.

End Table.

(* ===================================================================== *)
(** * The world the store runs in *)
(* ===================================================================== *)

(** A plain JavaScript object with string keys. *)
Abbreviation JSObject := (gmap string JS.value).

Record IHTTPRequest : Type := {
  url : string;
  method : string;
  headers : list (string * string);
  body : JSObject;
}.

(** What stays the same during a run: the build flag [__DEV__], the
    environment variable [TEST_ENV], the successive readings of the system
    clock, the answer of the transport to a request ([None]: the promise
    resolves; [Some e]: it rejects with [e]), the app version and the
    release of the operating system. *)
Record Env : Type := {
  DEV : bool;
  TEST_ENV : option string;
  clock : nat -> Z;
  transport : IHTTPRequest -> option string;
  appVersion : string;
  osRelease : string;
}.

(** What persists and changes: [localStorage], the database and the number
    of clock readings taken so far. *)
Record World : Type := {
  localStorage : gmap string string;
  db : StatsDatabase;
  clockReads : nat;
}.

(** The observable actions, in the order they happen. *)
Inductive Event : Type :=
| LocalStorageGet (key : string)
| LocalStorageSet (key val : string)
| DateNow
| LaunchesAdd
| LaunchesToArray
| LaunchesClear
| DimensionsFirst
| DimensionsPut
| ProxyRequest (options : IHTTPRequest)
| ConsoleLog (msg : string)
| ConsoleError (msg : string).

Inductive Result (A : Type) : Type :=
| Ok (a : A)
| Throw (e : string).
Arguments Ok {A} a.
Arguments Throw {A} e.

(** A computation: from the environment and the world to a result, the new
    world and the actions performed. *)
Definition M (A : Type) : Type := Env -> World -> Result A * World * list Event.

Definition ret {A} (a : A) : M A := fun _ w => (Ok a, w, []).

Definition bind {A B} (m : M A) (k : A -> M B) : M B :=
  fun env w =>
    match m env w with
    | (Ok a, w1, ev1) =>
        let '(r, w2, ev2) := k a env w1 in (r, w2, ev1 ++ ev2)
    | (Throw e, w1, ev1) => (Throw e, w1, ev1)
    end.

(** [try { m } catch (e) { handler e }] *)
Definition tryCatch {A} (m : M A) (handler : string -> M A) : M A :=
  fun env w =>
    match m env w with
    | (Throw e, w1, ev1) =>
        let '(r, w2, ev2) := handler e env w1 in (r, w2, ev1 ++ ev2)
    | done => done
    end.

Declare Scope js_scope.
Delimit Scope js_scope with js.
Notation "x <- m ;; k" := (bind m (fun x => k))
  (at level 100, m at next level, right associativity) : js_scope.
Notation "m ;; k" := (bind m (fun _ => k))
  (at level 100, right associativity) : js_scope.
Local Open Scope js_scope.

Definition ask {A} (f : Env -> A) : M A := fun env w => (Ok (f env), w, []).

Definition emit (e : Event) : M unit := fun _ w => (Ok tt, w, [e]).

Definition modify (f : World -> World) : M unit := fun _ w => (Ok tt, f w, []).

Definition gets {A} (f : World -> A) : M A := fun _ w => (Ok (f w), w, []).

Definition throw {A} (e : string) : M A := fun _ w => (Throw e, w, []).

Definition set_localStorage (ls : gmap string string) (w : World) : World :=
  {| localStorage := ls; db := db w; clockReads := clockReads w |}.

Definition set_db (d : StatsDatabase) (w : World) : World :=
  {| localStorage := localStorage w; db := d; clockReads := clockReads w |}.

Definition set_launches (l : list ILaunchStats) (w : World) : World :=
  set_db {| launches := l; dailyDimensions := dailyDimensions (db w) |} w.

Definition set_dailyDimensions (t : DimensionsTable) (w : World) : World :=
  set_db {| launches := launches (db w); dailyDimensions := t |} w.

Definition tick (w : World) : World :=
  {| localStorage := localStorage w; db := db w; clockReads := S (clockReads w) |}.

(** ** The primitives *)

Definition localStorage_getItem (key : string) : M (option string) :=
  emit (LocalStorageGet key) ;;
  gets (fun w => localStorage w !! key).

Definition localStorage_setItem (key val : string) : M unit :=
  emit (LocalStorageSet key val) ;;
  modify (fun w => set_localStorage (<[key := val]> (localStorage w)) w).

Definition Date_now : M Z :=
  fun env w => (Ok (clock env (clockReads w)), tick w, [DateNow]).

Definition launches_add (stats : ILaunchStats) : M unit :=
  emit LaunchesAdd ;;
  modify (fun w => set_launches (launches (db w) ++ [stats]) w).

Definition launches_toArray : M (list ILaunchStats) :=
  emit LaunchesToArray ;;
  gets (fun w => launches (db w)).

Definition launches_clear : M unit :=
  emit LaunchesClear ;;
  modify (set_launches []).

Definition dailyDimensions_first : M (option IDailyDimensions) :=
  emit DimensionsFirst ;;
  gets (fun w => Table.first (dailyDimensions (db w))).

Definition dailyDimensions_put (item : IDailyDimensions) (key : option Z) : M unit :=
  emit DimensionsPut ;;
  table <- gets (fun w => dailyDimensions (db w)) ;;
  match Table.put item key table with
  | Some table' => modify (set_dailyDimensions table')
  | None => throw "DataError"
  end.

(** A read-write transaction over the table [dailyDimensions]: its body
    runs without any other access to the table in between, and when the
    body fails the table is as before and the failure is passed on. *)
Definition transaction {A} (body : M A) : M A :=
  fun env w =>
    match body env w with
    | (Throw e, w1, ev1) =>
        (Throw e, set_dailyDimensions (dailyDimensions (db w)) w1, ev1)
    | done => done
    end.

Definition proxyRequest (options : IHTTPRequest) : M unit :=
  emit (ProxyRequest options) ;;
  answer <- ask (fun env => transport env options) ;;
  match answer with
  | None => ret tt
  | Some e => throw e
  end.

Definition console_log (msg : string) : M unit := emit (ConsoleLog msg).
Definition console_error (msg : string) : M unit := emit (ConsoleError msg).

Definition getVersion : M string := ask appVersion.
Definition OS_release : M string := ask osRelease.

(* ===================================================================== *)
(** * StatsStore *)
(* ===================================================================== *)

Module StatsStore.

Definition StatsEndpoint : string := "https://central.github.com/api/usage/desktop".

Definition LastDailyStatsReportKey : string := "last-daily-stats-report".

(** How often daily stats should be submitted (i.e., 24 hours). *)
Definition DailyStatsReportInterval : Z := 1000 * 60 * 60 * 24.

(** The own properties of an [ILaunchStats], written onto [target]. *)
Definition spreadLaunchStats (s : ILaunchStats) (target : JSObject) : JSObject :=
  <["rendererReadyTime" := JS.VNumber (rendererReadyTime s)]>
    (<["loadTime" := JS.VNumber (loadTime s)]>
       (<["mainReadyTime" := JS.VNumber (mainReadyTime s)]> target)).

(** The own properties of what [getDailyDimensions] returned, written onto
    [target]; spreading [undefined] adds nothing. *)
Definition spreadDailyDimensions (d : option IDailyDimensions) (target : JSObject)
    : JSObject :=
  match d with
  | None => target
  | Some d =>
      <["commits" := JS.VNumber (JS.Int (commits d))]>
        (match id d with
         | Some k => <["id" := JS.VNumber (JS.Int k)]> target
         | None => target
         end)
  end.

(** The last report date that [shouldReportDailyStats] works out of the
    string read from [localStorage] (the body of the function up to the
    reading of the clock). *)
Definition lastDateOf (lastDateString : option string) : JS.number :=
  let lastDate := JS.Int 0 in
  let lastDate :=
    match lastDateString with
    | Some s =>
        if (JS.truthy lastDateString && (0 <? Z.of_nat (String.length s)))%bool
        then JS.parseInt10 s
        else lastDate
    | None => lastDate
    end in
  let lastDate := if JS.isNaN lastDate then JS.Int 0 else lastDate in
  lastDate.

(** Should the app report its daily stats? *)
Definition shouldReportDailyStats : M bool :=
  lastDateString <- localStorage_getItem LastDailyStatsReportKey ;;
  let lastDate := lastDateOf lastDateString in
  now <- Date_now ;;
  ret (JS.gt (JS.sub (JS.Int now) lastDate) (JS.Int DailyStatsReportInterval)).

(** Record the given launch stats. *)
Definition recordLaunchStats (stats : ILaunchStats) : M unit :=
  launches_add stats.

(** Clear the stored launch stats. *)
Definition clearLaunchStats : M unit :=
  launches_clear.

(** One step of the [reduce] in [getAverageLaunchStats]. *)
Definition addLaunchStats (running current : ILaunchStats) : ILaunchStats :=
  {| mainReadyTime := JS.add (mainReadyTime running) (mainReadyTime current);
     loadTime := JS.add (loadTime running) (loadTime current);
     rendererReadyTime :=
       JS.add (rendererReadyTime running) (rendererReadyTime current) |}.

(** The pure part of [getAverageLaunchStats], on the array read from the
    table. *)
Definition averageLaunchStats (launches : list ILaunchStats) : ILaunchStats :=
  let start :=
    {| mainReadyTime := JS.Int 0;
       loadTime := JS.Int 0;
       rendererReadyTime := JS.Int 0 |} in
  let totals := fold_left addLaunchStats launches start in
  let length := JS.Int (Z.of_nat (List.length launches)) in
  {| mainReadyTime := JS.div (mainReadyTime totals) length;
     loadTime := JS.div (loadTime totals) length;
     rendererReadyTime := JS.div (rendererReadyTime totals) length |}.

(** Calculate the average launch stats. *)
Definition getAverageLaunchStats : M ILaunchStats :=
  launches <- launches_toArray ;;
  ret (averageLaunchStats launches).

Definition getDailyDimensions : M (option IDailyDimensions) :=
  dimensions <- dailyDimensions_first ;;
  ret dimensions.

Definition getDailyStats : M JSObject :=
  launchStats <- getAverageLaunchStats ;;
  dailyDimensions <- getDailyDimensions ;;
  version <- getVersion ;;
  osVersion <- OS_release ;;
  ret (spreadDailyDimensions dailyDimensions
         (spreadLaunchStats launchStats
            (<["osVersion" := JS.VString osVersion]>
               (<["version" := JS.VString version]> ∅)))).

(** The request that [reportStats] hands to the transport. *)
Definition statsRequest (stats : JSObject) : IHTTPRequest :=
  {| url := StatsEndpoint;
     method := "POST";
     headers := [("Content-Type", "application/json")];
     body := stats |}.

(** Report any stats which are eligible for reporting. *)
Definition reportStats : M unit :=
  dev <- ask DEV ;;
  testEnv <- ask TEST_ENV ;;
  (* Never report stats while in dev or test. *)
  if (dev || JS.truthy testEnv)%bool then ret tt else
  should <- shouldReportDailyStats ;;
  if negb should then ret tt else
  now <- Date_now ;;
  stats <- getDailyStats ;;
  let options := statsRequest stats in
  tryCatch
    (proxyRequest options ;;
     console_log "Stats reported." ;;
     clearLaunchStats ;;
     localStorage_setItem LastDailyStatsReportKey (JS.toString now))
    (fun e =>
       console_error "Error reporting stats:" ;;
       console_error e).

(** Record that a commit was accomplished. *)
Definition recordCommit : M unit :=
  transaction
    (dimensions <- dailyDimensions_first ;;
     let newDimensions :=
       {| id := None;
          commits := match dimensions with
                     | Some d => commits d + 1
                     | None => 1
                     end |} in
     dailyDimensions_put newDimensions
       (match dimensions with
        | Some d => id d
        | None => None
        end)).

End StatsStore.

(** ** Running a computation *)

Definition result {A} (o : Result A * World * list Event) : Result A := o.1.1.
Definition world {A} (o : Result A * World * list Event) : World := o.1.2.
Definition events {A} (o : Result A * World * list Event) : list Event := o.2.

(** [m] run [n] times in a row; the run stops at the first exception. *)
Fixpoint repeatM (n : nat) (m : M unit) : M unit :=
  match n with
  | O => ret tt
  | S n' => m ;; repeatM n' m
  end.

(** The requests handed to the transport among [evs]. *)
Definition requests (evs : list Event) : list IHTTPRequest :=
  omap (fun e => match e with ProxyRequest r => Some r | _ => None end) evs.

(** The persisted last-report value of a world. *)
Definition lastReport (w : World) : option string :=
  localStorage w !! StatsStore.LastDailyStatsReportKey.

(** Does [s] begin with a decimal digit? *)
Definition startsWithDigit (s : string) : bool :=
  match s with
  | String c _ => bool_decide (is_Some (JS.digitValue c))
  | EmptyString => false
  end.

(** The value of the digits [d], read from left to right on top of [acc]. *)
Fixpoint uintValue (d : uint) (acc : Z) : Z :=
  match d with
  | Nil => acc
  | D0 l => uintValue l (10 * acc + 0)
  | D1 l => uintValue l (10 * acc + 1)
  | D2 l => uintValue l (10 * acc + 2)
  | D3 l => uintValue l (10 * acc + 3)
  | D4 l => uintValue l (10 * acc + 4)
  | D5 l => uintValue l (10 * acc + 5)
  | D6 l => uintValue l (10 * acc + 6)
  | D7 l => uintValue l (10 * acc + 7)
  | D8 l => uintValue l (10 * acc + 8)
  | D9 l => uintValue l (10 * acc + 9)
  end.

(** ** Vocabulary of the statements *)

(** The reading that the next call of [Date.now()] returns. *)
Definition nextNow (env : Env) (w : World) : Z := clock env (clockReads w).

(** The [now] that a call of [reportStats] which gets past the eligibility
    check captures: the reading after the one taken by the check. *)
Definition capturedNow (env : Env) (w : World) : Z := clock env (S (clockReads w)).

(** The dev/test execution flag. *)
Definition devOrTest (env : Env) : bool := (DEV env || JS.truthy (TEST_ENV env))%bool.

(** The call of [reportStats] from [w] handed exactly one request to the
    transport, and the transport resolved it. *)
Definition transportSucceeded (env : Env) (w : World) : Prop :=
  exists r, requests (events (StatsStore.reportStats env w)) = [r]
            /\ transport env r = None.

(** The call of [reportStats] from [w] handed exactly one request to the
    transport, and the transport rejected it. *)
Definition transportFailed (env : Env) (w : World) : Prop :=
  exists r e, requests (events (StatsStore.reportStats env w)) = [r]
              /\ transport env r = Some e.

(** The report that [getDailyStats] assembles from [w]. *)
Definition dailyStatsOf (env : Env) (w : World) : JSObject :=
  StatsStore.spreadDailyDimensions (Table.first (dailyDimensions (db w)))
    (StatsStore.spreadLaunchStats (StatsStore.averageLaunchStats (launches (db w)))
       (<["osVersion" := JS.VString (osRelease env)]>
          (<["version" := JS.VString (appVersion env)]> ∅))).

(** The world after a report that went through. *)
Definition reportedWorld (env : Env) (w : World) : World :=
  {| localStorage :=
       <[StatsStore.LastDailyStatsReportKey := JS.toString (capturedNow env w)]> (localStorage w);
     db := {| launches := []; dailyDimensions := dailyDimensions (db w) |};
     clockReads := S (S (clockReads w)) |}.

(** The four ways a call of [reportStats] can go. *)
Inductive ReportCase (env : Env) (w : World) : Prop :=
| Suppressed :
    devOrTest env = true ->
    StatsStore.reportStats env w = (Ok tt, w, []) ->
    ReportCase env w
| NotEligible :
    devOrTest env = false ->
    StatsStore.reportStats env w =
      (Ok tt, tick w, [LocalStorageGet StatsStore.LastDailyStatsReportKey; DateNow]) ->
    ReportCase env w
| Reported :
    devOrTest env = false ->
    transport env (StatsStore.statsRequest (dailyStatsOf env w)) = None ->
    StatsStore.reportStats env w =
      (Ok tt, reportedWorld env w,
       [LocalStorageGet StatsStore.LastDailyStatsReportKey; DateNow; DateNow;
        LaunchesToArray; DimensionsFirst;
        ProxyRequest (StatsStore.statsRequest (dailyStatsOf env w));
        ConsoleLog "Stats reported."; LaunchesClear;
        LocalStorageSet StatsStore.LastDailyStatsReportKey (JS.toString (capturedNow env w))]) ->
    ReportCase env w
| Rejected (e : string) :
    devOrTest env = false ->
    transport env (StatsStore.statsRequest (dailyStatsOf env w)) = Some e ->
    StatsStore.reportStats env w =
      (Ok tt, tick (tick w),
       [LocalStorageGet StatsStore.LastDailyStatsReportKey; DateNow; DateNow;
        LaunchesToArray; DimensionsFirst;
        ProxyRequest (StatsStore.statsRequest (dailyStatsOf env w));
        ConsoleError "Error reporting stats:"; ConsoleError e]) ->
    ReportCase env w.

(** The persisted last-report value stands for the time [t]: nothing is
    persisted and [t] is 0, or the decimal digits of [t] are. *)
Definition persistedTimestamp (w : World) (t : Z) : Prop :=
  (lastReport w = None /\ t = 0) \/ lastReport w = Some (JS.toString t).

(** A string is a valid number when it is the decimal notation of an
    integer, the form in which [reportStats] persists a time. *)
Definition validNumber (s : string) : Prop := exists t : Z, s = JS.toString t.

(** The sum of a list of rationals, and the arithmetic mean of a list:
    its sum divided by its length. *)
Definition Qsum (l : list Q) : Q := fold_right Qplus 0%Q l.
Definition mean (l : list Q) : Q := (Qsum l / inject_Z (Z.of_nat (List.length l)))%Q.

(** [q] is a binary64 number: rounding leaves it as it is. *)
Definition exact64 (q : Q) : Prop := JS.is_value (JS.round64 q) q.

(** Every running sum of [l], taken from left to right on top of [acc],
    is a binary64 number. *)
Fixpoint runningSumsExact (acc : Q) (l : list Q) : Prop :=
  match l with
  | [] => True
  | x :: rest => exact64 (acc + x) /\ runningSumsExact (acc + x)%Q rest
  end.

(** The running sums of [l] and its mean are binary64 numbers. *)
Definition exactlyAveraged (l : list Q) : Prop :=
  runningSumsExact 0 l /\ exact64 (mean l).

(** A launch record with the finite timings [(a, b, c)]. *)
Definition launchRecord (t : Q * Q * Q) : ILaunchStats :=
  {| mainReadyTime := JS.Fin t.1.1;
     loadTime := JS.Fin t.1.2;
     rendererReadyTime := JS.Fin t.2 |}.

(** The commit count that the DailyCounters row holds, 0 without a row. *)
Definition commitCount (w : World) : Z :=
  match Table.first (dailyDimensions (db w)) with
  | Some d => commits d
  | None => 0
  end.

(** ** A concrete scenario

    Persisted timestamp 0, the launch records (100,200,50), (200,300,70)
    and (300,400,90), and five commits counted. *)

Definition scenarioLaunches : list (Q * Q * Q) :=
  [(100, 200, 50); (200, 300, 70); (300, 400, 90)]%Q.

Definition scenarioWorld : World :=
  {| localStorage := {[ StatsStore.LastDailyStatsReportKey := "0"%string ]};
     db := {| launches := map launchRecord scenarioLaunches;
              dailyDimensions :=
                {| inlineKey := true; rows := [(1, 5)]; lastKey := 1 |} |};
     clockReads := 0 |}.

(** The clock starts at [start] and advances by one millisecond per
    reading; the transport resolves when [answer] is [None]. *)
Definition scenarioEnv (dev : bool) (start : Z) (answer : option string) : Env :=
  {| DEV := dev;
     TEST_ENV := None;
     clock := fun n => start + Z.of_nat n;
     transport := fun _ => answer;
     appVersion := "0.0.1";
     osRelease := "16.0.0" |}.

(** A world that persists [v] as the last-report value and nothing else. *)
Definition worldWith (v : option string) : World :=
  {| localStorage :=
       match v with
       | Some s => {[ StatsStore.LastDailyStatsReportKey := s ]}
       | None => ∅
       end;
     db := {| launches := []; dailyDimensions := Table.empty |};
     clockReads := 0 |}.

(** ** Sequences of calls *)

(** The public operations of the store. *)
Inductive Op : Type :=
| OpReportStats
| OpRecordCommit
| OpRecordLaunchStats (stats : ILaunchStats).

Definition runOp (op : Op) : M unit :=
  match op with
  | OpReportStats => StatsStore.reportStats
  | OpRecordCommit => StatsStore.recordCommit
  | OpRecordLaunchStats stats => StatsStore.recordLaunchStats stats
  end.

(** The operations [ops] called one after the other, each awaited. *)
Fixpoint runOps (ops : list Op) : M unit :=
  match ops with
  | [] => ret tt
  | op :: rest => (runOp op ;; runOps rest)%js
  end.

(** Does the action change what persists? *)
Definition mutating (e : Event) : bool :=
  match e with
  | LocalStorageSet _ _ | LaunchesAdd | LaunchesClear | DimensionsPut => true
  | _ => false
  end.

(** [env] with another value of the environment variable [TEST_ENV]. *)
Definition withTestEnv (v : option string) (env : Env) : Env :=
  {| DEV := DEV env;
     TEST_ENV := v;
     clock := clock env;
     transport := transport env;
     appVersion := appVersion env;
     osRelease := osRelease env |}.

(* ===================================================================== *)
(** * Decimal strings: [parseInt] reads back what [toString] prints *)
(* ===================================================================== *)

Section Decimal.

(** Evaluate the character tests on literal characters. *)
Ltac eval_chars :=
  repeat match goal with
    | |- context [JS.isWhiteSpace ?c] =>
        let v := eval vm_compute in (JS.isWhiteSpace c) in
        change (JS.isWhiteSpace c) with v
    | |- context [JS.digitValue ?c] =>
        let v := eval vm_compute in (JS.digitValue c) in
        change (JS.digitValue c) with v
    end.

Lemma append_empty_r (s : string) : (s +:+ "")%string = s.
Proof.
  induction s as [|c s IH]; [reflexivity |].
  change (String c (s +:+ "") = String c s). by rewrite IH.
Qed.

Lemma append_cons (c : ascii) (s rest : string) :
  (String c s +:+ rest)%string = String c (s +:+ rest).
Proof. reflexivity. Qed.

(** Reading stops at the first character that is not a digit. *)
Lemma readDigits_stop (rest : string) (acc : Z) :
  startsWithDigit rest = false -> JS.readDigits rest (Some acc) = Some acc.
Proof.
  destruct rest as [|c rest]; [reflexivity |].
  cbn [startsWithDigit JS.readDigits]. intros H.
  destruct (JS.digitValue c) eqn:E; [| reflexivity].
  apply bool_decide_eq_false in H. destruct H. by eexists.
Qed.

Lemma readDigits_uint (d : uint) (rest : string) (acc : Z) :
  JS.readDigits (NilEmpty.string_of_uint d +:+ rest) (Some acc)
  = JS.readDigits rest (Some (uintValue d acc)).
Proof.
  revert acc; induction d; intros acc;
    cbn [NilEmpty.string_of_uint String.append JS.readDigits uintValue];
    try reflexivity; eval_chars; cbn [default]; apply IHd.
Qed.

Lemma of_uint_acc_value (d : uint) (p : positive) :
  Z.pos (Pos.of_uint_acc d p) = uintValue d (Z.pos p).
Proof.
  revert p; induction d; intros p; cbn [Pos.of_uint_acc uintValue];
    try reflexivity; rewrite IHd; f_equal; lia.
Qed.

Lemma of_uint_value (d : uint) : Z.of_uint d = uintValue d 0.
Proof.
  unfold Z.of_uint.
  induction d; cbn [Pos.of_uint uintValue]; try reflexivity;
    try (cbn [Z.of_N]; rewrite of_uint_acc_value; reflexivity).
  exact IHd.
Qed.

Lemma parseInt10_uint (d : uint) (rest : string) :
  d <> Nil ->
  startsWithDigit rest = false ->
  JS.parseInt10 (NilEmpty.string_of_uint d +:+ rest) = JS.Int (Z.of_uint d).
Proof.
  intros Hd Hrest. rewrite of_uint_value.
  destruct d; [congruence | ..];
    unfold JS.parseInt10;
    cbn [NilEmpty.string_of_uint]; rewrite append_cons; cbn [JS.trimStart];
    eval_chars; cbv iota; cbn [JS.readDigits]; eval_chars; cbv iota;
    cbn [default]; rewrite readDigits_uint, (readDigits_stop _ _ Hrest);
    cbn [uintValue]; f_equal; lia.
Qed.

Lemma parseInt10_neg_uint (d : uint) (rest : string) :
  d <> Nil ->
  startsWithDigit rest = false ->
  JS.parseInt10 (String "-" (NilEmpty.string_of_uint d +:+ rest))
  = JS.Int (- Z.of_uint d).
Proof.
  intros Hd Hrest. rewrite of_uint_value.
  destruct d; [congruence | ..];
    unfold JS.parseInt10;
    cbn [NilEmpty.string_of_uint]; rewrite append_cons; cbn [JS.trimStart];
    eval_chars; cbv iota; cbn [JS.readDigits]; eval_chars; cbv iota;
    cbn [default]; rewrite readDigits_uint, (readDigits_stop _ _ Hrest);
    cbn [uintValue]; f_equal; lia.
Qed.

Lemma string_of_uint_nonnil (d : uint) :
  d <> Nil -> NilZero.string_of_uint d = NilEmpty.string_of_uint d.
Proof. destruct d; [congruence | reflexivity..]. Qed.

(** An integer printed by [toString] and followed by anything that does
    not go on with a digit is read back by [parseInt]. *)
Lemma parseInt10_toString_app (t : Z) (rest : string) :
  startsWithDigit rest = false ->
  JS.parseInt10 (JS.toString t +:+ rest) = JS.Int t.
Proof.
  intros Hrest. unfold JS.toString.
  destruct t as [|p|p]; cbn [Z.to_int NilZero.string_of_int].
  - exact (parseInt10_uint (D0 Nil) rest ltac:(discriminate) Hrest).
  - pose proof (DecimalPos.Unsigned.to_uint_nonnil p) as Hnn.
    rewrite (string_of_uint_nonnil _ Hnn), (parseInt10_uint _ _ Hnn Hrest).
    unfold Z.of_uint. by rewrite DecimalPos.Unsigned.of_to.
  - pose proof (DecimalPos.Unsigned.to_uint_nonnil p) as Hnn.
    rewrite (string_of_uint_nonnil _ Hnn), append_cons.
    rewrite (parseInt10_neg_uint _ _ Hnn Hrest).
    unfold Z.of_uint. by rewrite DecimalPos.Unsigned.of_to.
Qed.

Lemma parseInt10_toString (t : Z) : JS.parseInt10 (JS.toString t) = JS.Int t.
Proof.
  rewrite <- (append_empty_r (JS.toString t)).
  by apply parseInt10_toString_app.
Qed.

Example parseInt10_ex1 : JS.parseInt10 "1478000000000" = JS.Int 1478000000000.
Proof. reflexivity. Qed.
Example parseInt10_ex2 : JS.parseInt10 "  -42px" = JS.Int (-42).
Proof. reflexivity. Qed.
Example parseInt10_ex3 : JS.parseInt10 "abc" = JS.NaN.
Proof. reflexivity. Qed.
Example toString_ex1 : JS.toString 1478000000000 = "1478000000000"%string.
Proof. reflexivity. Qed.
Example toString_ex2 : JS.toString (-7) = "-7"%string /\ JS.toString 0 = "0"%string.
Proof. split; reflexivity. Qed.

Lemma Int_inj (a b : Z) : JS.Int a = JS.Int b -> a = b.
Proof. unfold JS.Int, inject_Z. congruence. Qed.

Lemma toString_inj (a b : Z) : JS.toString a = JS.toString b -> a = b.
Proof.
  intros H. apply Int_inj. by rewrite <- !parseInt10_toString, H.
Qed.

End Decimal.

(* ===================================================================== *)
(** * Binary64 rounding on known values *)
(* ===================================================================== *)

Section Rounding.

(** 4/3 is rounded to 0x1.5555555555555p+0, printed 1.3333333333333333. *)
Example round64_four_thirds :
  JS.round64 (4 # 3) = JS.Fin (6004799503160661 # 4503599627370496).
Proof. vm_compute. reflexivity. Qed.

(** 1/10 is rounded to 0x1.999999999999ap-4. *)
Example round64_one_tenth :
  JS.round64 (1 # 10) = JS.Fin (3602879701896397 # 36028797018963968).
Proof. vm_compute. reflexivity. Qed.

(** Integers up to 2^53 are kept; above, ties go to the even neighbour. *)
Example round64_integers :
  JS.round64 600 = JS.Fin 600
  /\ JS.round64 (inject_Z (2 ^ 53)) = JS.Fin (inject_Z (2 ^ 53))
  /\ JS.round64 (inject_Z (2 ^ 53 + 1)) = JS.Fin (inject_Z (2 ^ 53))
  /\ JS.round64 (inject_Z (2 ^ 53 + 3)) = JS.Fin (inject_Z (2 ^ 53 + 4)).
Proof. repeat split; vm_compute; reflexivity. Qed.

(** The greatest binary64 number is kept, and halfway to 2^1024 is already
    an infinity; 1e308 + 1e308 overflows. *)
Example round64_overflow :
  JS.round64 (inject_Z (2 ^ 1024 - 2 ^ 971)) = JS.Fin (inject_Z (2 ^ 1024 - 2 ^ 971))
  /\ JS.round64 (inject_Z (2 ^ 1024 - 2 ^ 970)) = JS.PosInfinity
  /\ JS.round64 (- inject_Z (2 ^ 1024 - 2 ^ 970)) = JS.NegInfinity
  /\ JS.add (JS.round64 (inject_Z (10 ^ 308))) (JS.round64 (inject_Z (10 ^ 308)))
     = JS.PosInfinity.
Proof. repeat split; vm_compute; reflexivity. Qed.

(** The least positive binary64 number is 2^-1074; half of it is rounded
    to zero and three halves of it to twice it. *)
Example round64_subnormal :
  JS.round64 (1 # 2 ^ 1074) = JS.Fin (1 # 2 ^ 1074)
  /\ JS.round64 (1 # 2 ^ 1075) = JS.Fin 0
  /\ JS.round64 (3 # 2 ^ 1075) = JS.Fin (1 # 2 ^ 1073).
Proof. repeat split; vm_compute; reflexivity. Qed.

(** 0.1 + 0.2 is 0.30000000000000004 and not 0.3. *)
Example add_tenth_fifth :
  JS.add (JS.round64 (1 # 10)) (JS.round64 (2 # 10))
  = JS.Fin (1351079888211149 # 4503599627370496)
  /\ JS.round64 (3 # 10) = JS.Fin (5404319552844595 # 18014398509481984).
Proof. split; vm_compute; reflexivity. Qed.

End Rounding.

(* ===================================================================== *)
(** * The eligibility check *)
(* ===================================================================== *)

Section Eligibility.

Import StatsStore.

Lemma gt_sub_Int (a b c : Z) :
  JS.gt (JS.sub (JS.Int a) (JS.Int b)) (JS.Int c) = (c <? a - b).
Proof.
  unfold JS.gt, JS.sub, JS.Int, Qle_bool, Qminus, Qplus, Qopp, inject_Z.
  cbn [Qnum Qden].
  destruct (Z.leb_spec ((a * 1 + - b * 1) * 1) (c * Z.pos (1 * 1)));
    destruct (Z.ltb_spec c (a - b)); cbn [negb]; try reflexivity; lia.
Qed.

Lemma parseInt10_cases (s : string) :
  JS.parseInt10 s = JS.NaN \/ exists z, JS.parseInt10 s = JS.Int z.
Proof.
  unfold JS.parseInt10.
  destruct (match JS.trimStart s with
            | String "-"%char rest => (-1, rest)
            | String "+"%char rest => (1, rest)
            | _ => (1, JS.trimStart s)
            end) as [sign s'].
  destruct (JS.readDigits s' None); eauto.
Qed.

(** The last report date is always an integer, never [NaN]. *)
Lemma lastDateOf_Int (v : option string) : exists z, lastDateOf v = JS.Int z.
Proof.
  unfold lastDateOf. destruct v as [s|]; [| by exists 0].
  destruct (JS.truthy (Some s) && (0 <? Z.of_nat (String.length s)))%bool;
    [| by exists 0].
  destruct (parseInt10_cases s) as [-> | [z ->]]; [by exists 0 | by exists z].
Qed.

Lemma lastDateOf_None : lastDateOf None = JS.Int 0.
Proof. reflexivity. Qed.

Lemma lastDateOf_NaN (s : string) :
  JS.parseInt10 s = JS.NaN -> lastDateOf (Some s) = JS.Int 0.
Proof.
  intros H. unfold lastDateOf. rewrite H.
  destruct (JS.truthy (Some s) && (0 <? Z.of_nat (String.length s)))%bool;
    reflexivity.
Qed.

Lemma lastDateOf_parse (s : string) (z : Z) :
  JS.parseInt10 s = JS.Int z -> lastDateOf (Some s) = JS.Int z.
Proof.
  intros H. unfold lastDateOf. rewrite H.
  destruct s as [|c s']; [discriminate H |].
  reflexivity.
Qed.

Lemma lastDateOf_toString (t : Z) : lastDateOf (Some (JS.toString t)) = JS.Int t.
Proof. apply lastDateOf_parse, parseInt10_toString. Qed.

Lemma lastDateOf_persisted (w : World) (t : Z) :
  persistedTimestamp w t -> lastDateOf (lastReport w) = JS.Int t.
Proof.
  intros [[-> ->] | ->]; [reflexivity | apply lastDateOf_toString].
Qed.

(** What one run of the check does: one read of [localStorage], one
    reading of the clock, and a decision. *)
Lemma shouldReportDailyStats_run (env : Env) (w : World) :
  shouldReportDailyStats env w =
    (Ok (JS.gt (JS.sub (JS.Int (nextNow env w)) (lastDateOf (lastReport w)))
               (JS.Int DailyStatsReportInterval)),
     tick w,
     [LocalStorageGet LastDailyStatsReportKey; DateNow]).
Proof. destruct w; reflexivity. Qed.

Lemma shouldReportDailyStats_value (env : Env) (w : World) (z : Z) :
  lastDateOf (lastReport w) = JS.Int z ->
  shouldReportDailyStats env w =
    (Ok (DailyStatsReportInterval <? nextNow env w - z),
     tick w,
     [LocalStorageGet LastDailyStatsReportKey; DateNow]).
Proof.
  intros H. rewrite shouldReportDailyStats_run, H, gt_sub_Int. reflexivity.
Qed.

End Eligibility.

(* ===================================================================== *)
(** * The report cycle *)
(* ===================================================================== *)

Section Report.

Import StatsStore.

(** The report that [getDailyStats] assembles in [w], which it leaves
    unchanged. *)
Lemma getDailyStats_run (env : Env) (w : World) :
  getDailyStats env w = (Ok (dailyStatsOf env w), w, [LaunchesToArray; DimensionsFirst]).
Proof. destruct w; reflexivity. Qed.

(** In dev or test nothing at all happens. *)
Lemma reportStats_dev (env : Env) (w : World) :
  devOrTest env = true -> reportStats env w = (Ok tt, w, []).
Proof.
  unfold devOrTest, reportStats, bind, ask. intros ->. reflexivity.
Qed.

(** When the check says no, only the check has run. *)
Lemma reportStats_not_eligible (env : Env) (w : World) (z : Z) :
  devOrTest env = false ->
  lastDateOf (lastReport w) = JS.Int z ->
  nextNow env w - z <= DailyStatsReportInterval ->
  reportStats env w =
    (Ok tt, tick w, [LocalStorageGet LastDailyStatsReportKey; DateNow]).
Proof.
  unfold devOrTest. intros Hdev Hz Hle.
  unfold reportStats, bind at 1 2 3, ask. rewrite Hdev.
  rewrite (shouldReportDailyStats_value env w z Hz).
  destruct (Z.ltb_spec DailyStatsReportInterval (nextNow env w - z)); [lia |].
  reflexivity.
Qed.

(** When the check says yes and the transport resolves. *)
Lemma reportStats_success (env : Env) (w : World) (z : Z) :
  devOrTest env = false ->
  lastDateOf (lastReport w) = JS.Int z ->
  DailyStatsReportInterval < nextNow env w - z ->
  transport env (statsRequest (dailyStatsOf env w)) = None ->
  reportStats env w =
    (Ok tt, reportedWorld env w,
     [LocalStorageGet LastDailyStatsReportKey; DateNow; DateNow;
      LaunchesToArray; DimensionsFirst;
      ProxyRequest (statsRequest (dailyStatsOf env w));
      ConsoleLog "Stats reported."; LaunchesClear;
      LocalStorageSet LastDailyStatsReportKey (JS.toString (capturedNow env w))]).
Proof.
  unfold devOrTest. intros Hdev Hz Hlt Hok.
  unfold reportStats, bind at 1 2 3, ask. rewrite Hdev.
  rewrite (shouldReportDailyStats_value env w z Hz).
  destruct (Z.ltb_spec DailyStatsReportInterval (nextNow env w - z)); [| lia].
  cbn [negb]. unfold bind at 1, Date_now. unfold bind at 1.
  rewrite getDailyStats_run.
  change (dailyStatsOf env w) with (dailyStatsOf env (tick (tick w))) in Hok.
  unfold tryCatch, proxyRequest, bind, ask, emit. rewrite Hok.
  destruct w; reflexivity.
Qed.

(** When the check says yes and the transport rejects. *)
Lemma reportStats_failure (env : Env) (w : World) (z : Z) (e : string) :
  devOrTest env = false ->
  lastDateOf (lastReport w) = JS.Int z ->
  DailyStatsReportInterval < nextNow env w - z ->
  transport env (statsRequest (dailyStatsOf env w)) = Some e ->
  reportStats env w =
    (Ok tt, tick (tick w),
     [LocalStorageGet LastDailyStatsReportKey; DateNow; DateNow;
      LaunchesToArray; DimensionsFirst;
      ProxyRequest (statsRequest (dailyStatsOf env w));
      ConsoleError "Error reporting stats:"; ConsoleError e]).
Proof.
  unfold devOrTest. intros Hdev Hz Hlt Hko.
  unfold reportStats, bind at 1 2 3, ask. rewrite Hdev.
  rewrite (shouldReportDailyStats_value env w z Hz).
  destruct (Z.ltb_spec DailyStatsReportInterval (nextNow env w - z)); [| lia].
  cbn [negb]. unfold bind at 1, Date_now. unfold bind at 1.
  rewrite getDailyStats_run.
  change (dailyStatsOf env w) with (dailyStatsOf env (tick (tick w))) in Hko.
  unfold tryCatch, proxyRequest, bind, ask, emit. rewrite Hko.
  destruct w; reflexivity.
Qed.

Lemma reportStats_cases (env : Env) (w : World) : ReportCase env w.
Proof.
  destruct (devOrTest env) eqn:Hdev.
  { apply Suppressed; [done | by apply reportStats_dev]. }
  destruct (lastDateOf_Int (lastReport w)) as [z Hz].
  destruct (Z.le_gt_cases (nextNow env w - z) DailyStatsReportInterval) as [Hle | Hlt].
  { apply NotEligible; [done | by eapply reportStats_not_eligible]. }
  destruct (transport env (statsRequest (dailyStatsOf env w))) as [e|] eqn:Ht.
  - eapply Rejected; [done | exact Ht | by eapply reportStats_failure].
  - eapply Reported; [done | exact Ht | by eapply reportStats_success].
Qed.

(** A call whose submission succeeded is a call of the third kind. *)
Lemma transportSucceeded_inv (env : Env) (w : World) :
  transportSucceeded env w ->
  devOrTest env = false /\ world (reportStats env w) = reportedWorld env w
  /\ result (reportStats env w) = Ok tt.
Proof.
  intros (r & Hr & Hok).
  destruct (reportStats_cases env w) as [? H | ? H | ? ? H | e ? Ht H];
    rewrite H in Hr |- *; cbn in Hr; try discriminate Hr.
  - done.
  - injection Hr as <-. congruence.
Qed.

(** A call whose submission failed is a call of the fourth kind. *)
Lemma transportFailed_inv (env : Env) (w : World) :
  transportFailed env w ->
  devOrTest env = false /\ world (reportStats env w) = tick (tick w)
  /\ result (reportStats env w) = Ok tt.
Proof.
  intros (r & e & Hr & Hko).
  destruct (reportStats_cases env w) as [? H | ? H | ? Ht H | e' ? Ht H];
    rewrite H in Hr |- *; cbn in Hr; try discriminate Hr.
  - injection Hr as <-. congruence.
  - done.
Qed.

End Report.

(* ===================================================================== *)
(** * Properties of the report cycle *)
(* ===================================================================== *)

Section ReportProperties.

Import StatsStore.

(** C1. After a call of [reportStats] whose submission the transport
    accepted, no launch record is stored, the persisted last-report value
    is the [now] that the call captured, and the table of daily counters,
    hence the commit count, is what it was. *)
Theorem C1_success_clears_launches_and_stamps (env : Env) (w : World) :
  transportSucceeded env w ->
  let w' := world (reportStats env w) in
  launches (db w') = []
  /\ lastReport w' = Some (JS.toString (capturedNow env w))
  /\ dailyDimensions (db w') = dailyDimensions (db w)
  /\ commitCount w' = commitCount w.
Proof.
  intros H w'. destruct (transportSucceeded_inv env w H) as (_ & Hw & _).
  subst w'. rewrite Hw. unfold lastReport, commitCount, reportedWorld.
  cbn [launches db localStorage dailyDimensions].
  by rewrite lookup_insert_eq.
Qed.

Lemma C1_witness :
  let env := scenarioEnv false 1478000000000 None in
  let w' := world (reportStats env scenarioWorld) in
  transportSucceeded env scenarioWorld
  /\ launches (db w') = []
  /\ lastReport w' = Some "1478000000001"%string
  /\ dailyDimensions (db w') = dailyDimensions (db scenarioWorld)
  /\ commitCount w' = 5.
Proof.
  assert (H : transportSucceeded (scenarioEnv false 1478000000000 None) scenarioWorld).
  { eexists; split; reflexivity. }
  split; [exact H |].
  exact (C1_success_clears_launches_and_stamps
           (scenarioEnv false 1478000000000 None) scenarioWorld H).
Defined.

(** C2. After a call of [reportStats] whose submission the transport
    rejected, [localStorage] (so the last-report value) and the database
    (so the launch records) are what they were, and the call returns
    normally: the exception is not passed on. *)
Theorem C2_failure_leaves_state (env : Env) (w : World) :
  transportFailed env w ->
  let o := reportStats env w in
  result o = Ok tt
  /\ localStorage (world o) = localStorage w
  /\ lastReport (world o) = lastReport w
  /\ launches (db (world o)) = launches (db w)
  /\ db (world o) = db w.
Proof.
  intros H o. destruct (transportFailed_inv env w H) as (_ & Hw & Hr).
  subst o. rewrite Hw, Hr. by destruct w.
Qed.

Lemma C2_witness :
  let env := scenarioEnv false 1478000000000 (Some "offline"%string) in
  let o := reportStats env scenarioWorld in
  transportFailed env scenarioWorld
  /\ result o = Ok tt
  /\ localStorage (world o) = localStorage scenarioWorld
  /\ lastReport (world o) = Some "0"%string
  /\ launches (db (world o)) = map launchRecord scenarioLaunches
  /\ db (world o) = db scenarioWorld.
Proof.
  assert (H : transportFailed
                (scenarioEnv false 1478000000000 (Some "offline"%string))
                scenarioWorld).
  { do 2 eexists; split; reflexivity. }
  split; [exact H |].
  exact (C2_failure_leaves_state
           (scenarioEnv false 1478000000000 (Some "offline"%string))
           scenarioWorld H).
Defined.

(** C6. With the dev/test flag set, a call of [reportStats] returns at
    once: it performs no action at all (no read of the persisted value, no
    reading of the clock, no access to the database, no request) and the
    world is the same. *)
Theorem C6_dev_or_test_is_noop (env : Env) (w : World) :
  devOrTest env = true ->
  reportStats env w = (Ok tt, w, [])
  /\ events (reportStats env w) = []
  /\ requests (events (reportStats env w)) = []
  /\ world (reportStats env w) = w.
Proof.
  intros H. rewrite (reportStats_dev env w H). done.
Qed.

Lemma C6_witness :
  let env := scenarioEnv true 1478000000000 None in
  devOrTest env = true
  /\ reportStats env scenarioWorld = (Ok tt, scenarioWorld, [])
  /\ events (reportStats env scenarioWorld) = []
  /\ requests (events (reportStats env scenarioWorld)) = []
  /\ world (reportStats env scenarioWorld) = scenarioWorld.
Proof.
  split; [reflexivity |].
  apply (C6_dev_or_test_is_noop (scenarioEnv true 1478000000000 None) scenarioWorld).
  reflexivity.
Defined.

End ReportProperties.

(* ===================================================================== *)
(** * Properties of the eligibility check *)
(* ===================================================================== *)

Section EligibilityProperties.

Import StatsStore.

Lemma interval_value : DailyStatsReportInterval = 86400000.
Proof. reflexivity. Qed.

Lemma eligible_iff (env : Env) (w : World) (z : Z) :
  lastDateOf (lastReport w) = JS.Int z ->
  exists b, result (shouldReportDailyStats env w) = Ok b
            /\ (b = true <-> nextNow env w - z > DailyStatsReportInterval).
Proof.
  intros H. rewrite (shouldReportDailyStats_value env w z H).
  eexists; split; [reflexivity |]. rewrite Z.ltb_lt. lia.
Qed.

(** After a report that went through, the last report date is the [now]
    that the call captured. *)
Lemma lastDateOf_reported (env : Env) (w : World) :
  transportSucceeded env w ->
  lastDateOf (lastReport (world (reportStats env w))) = JS.Int (capturedNow env w).
Proof.
  intros (_ & -> & _)%transportSucceeded_inv.
  unfold lastReport, reportedWorld. cbn [localStorage].
  rewrite lookup_insert_eq. apply lastDateOf_toString.
Qed.

(** C3. The check answers true exactly when [now - lastReportTimestamp]
    exceeds the report interval, which is 24 hours, 86,400,000 ms; a value
    that is absent or is zero counts as 0, so that a first-ever call is
    eligible whenever [now] is more than the interval past the epoch. *)
Theorem C3_eligible_iff_interval_elapsed (env : Env) (w : World) (t : Z) :
  persistedTimestamp w t ->
  (exists b, result (shouldReportDailyStats env w) = Ok b
             /\ (b = true <-> nextNow env w - t > DailyStatsReportInterval))
  /\ DailyStatsReportInterval = 86400000
  /\ (lastReport w = None \/ lastReport w = Some "0"%string ->
      t = 0
      /\ (nextNow env w > 86400000 ->
          result (shouldReportDailyStats env w) = Ok true)).
Proof.
  intros Hp. pose proof (lastDateOf_persisted w t Hp) as Hz.
  split; [by apply eligible_iff |]. split; [reflexivity |].
  intros Hzero.
  assert (t = 0) as ->.
  { destruct Hp as [[_ ->] | Hs]; [done |].
    destruct Hzero as [Hn | H0]; [congruence |].
    apply toString_inj. change (JS.toString 0) with "0"%string. congruence. }
  split; [done |]. intros Hnow.
  rewrite (shouldReportDailyStats_value env w 0 Hz).
  unfold result; cbn [fst]. f_equal. apply Z.ltb_lt. rewrite interval_value. lia.
Qed.

Lemma C3_witness :
  let env := scenarioEnv false 1478000000000 None in
  persistedTimestamp (worldWith None) 0
  /\ result (shouldReportDailyStats env (worldWith None)) = Ok true.
Proof.
  assert (H : persistedTimestamp (worldWith None) 0).
  { left; split; reflexivity. }
  split; [exact H |].
  refine (proj2 (proj2 (proj2
    (C3_eligible_iff_interval_elapsed
       (scenarioEnv false 1478000000000 None) (worldWith None) 0 H)) _) _).
  - left; reflexivity.
  - reflexivity.
Defined.

(** C9, as the spec states it, fails: with nothing persisted and the clock
    exactly at the interval, the check answers false, although [now] is at
    the threshold [lastReportTimestamp + ReportInterval]. *)
Lemma C9_counterexample :
  ~ (forall (env : Env) (w : World) (t : Z),
       persistedTimestamp w t ->
       (nextNow env w < t + DailyStatsReportInterval ->
        result (shouldReportDailyStats env w) = Ok false)
       /\ (t + DailyStatsReportInterval <= nextNow env w ->
           result (shouldReportDailyStats env w) = Ok true)).
Proof.
  intros H.
  destruct (H (scenarioEnv false 86400000 None) (worldWith None) 0) as [_ H2].
  { left; split; reflexivity. }
  specialize (H2 ltac:(vm_compute; discriminate)).
  vm_compute in H2. discriminate H2.
Qed.

(** C9 (amended). For a fixed last-report time the check is monotonic in
    [now]: it answers false up to and including
    [lastReportTimestamp + ReportInterval] and true strictly above it.
    Hence, after a report that went through at time [now], a check at
    [now + 1] answers false and a check at [now + ReportInterval + 1]
    answers true. *)
Theorem C9_threshold_is_strict (env env' : Env) (w : World) (t : Z) :
  persistedTimestamp w t ->
  (nextNow env w <= t + DailyStatsReportInterval ->
   result (shouldReportDailyStats env w) = Ok false)
  /\ (t + DailyStatsReportInterval < nextNow env w ->
      result (shouldReportDailyStats env w) = Ok true)
  /\ (nextNow env w <= nextNow env' w ->
      result (shouldReportDailyStats env w) = Ok true ->
      result (shouldReportDailyStats env' w) = Ok true)
  /\ (transportSucceeded env w ->
      let w' := world (reportStats env w) in
      (nextNow env' w' = capturedNow env w + 1 ->
       result (shouldReportDailyStats env' w') = Ok false)
      /\ (nextNow env' w' = capturedNow env w + DailyStatsReportInterval + 1 ->
          result (shouldReportDailyStats env' w') = Ok true)).
Proof.
  intros Hp. pose proof (lastDateOf_persisted w t Hp) as Hz.
  rewrite !(shouldReportDailyStats_value _ w t Hz). unfold result; cbn [fst].
  split; [| split; [| split]].
  - intros Hle. f_equal. apply Z.ltb_ge. lia.
  - intros Hlt. f_equal. apply Z.ltb_lt. lia.
  - intros Hle [= Hb%Z.ltb_lt]. f_equal. apply Z.ltb_lt. lia.
  - intros Hok.
    pose proof (lastDateOf_reported env w Hok) as Hs.
    rewrite (shouldReportDailyStats_value env' _ _ Hs). cbn [fst].
    split; intros Hnow; f_equal.
    + apply Z.ltb_ge. rewrite interval_value. lia.
    + apply Z.ltb_lt. lia.
Qed.

Lemma C9_witness :
  let env := scenarioEnv false 1478000000000 None in
  let env' := scenarioEnv false (1478000000000 + 86400000) None in
  persistedTimestamp scenarioWorld 0
  /\ transportSucceeded env scenarioWorld
  /\ result (shouldReportDailyStats env' (world (reportStats env scenarioWorld)))
      = Ok true.
Proof.
  assert (Hp : persistedTimestamp scenarioWorld 0) by (right; reflexivity).
  assert (Hok : transportSucceeded (scenarioEnv false 1478000000000 None) scenarioWorld).
  { eexists; split; reflexivity. }
  split; [exact Hp |]. split; [exact Hok |].
  destruct (C9_threshold_is_strict
              (scenarioEnv false 1478000000000 None)
              (scenarioEnv false (1478000000000 + 86400000) None)
              scenarioWorld 0 Hp) as (_ & _ & _ & Hafter).
  apply (Hafter Hok). reflexivity.
Defined.

(** A string in which something other than a digit follows the digits of
    an integer is not a valid number. *)
Lemma not_validNumber_1x : ~ validNumber "1x".
Proof.
  intros [t Ht].
  assert (t = 1) as ->.
  { apply Int_inj. rewrite <- parseInt10_toString, <- Ht. reflexivity. }
  discriminate Ht.
Qed.

(** C10, as the spec states it, fails: the persisted string "1x" is not a
    valid number, yet the check reads it as 1 and not as 0; with the clock
    at one millisecond past the interval it answers false, where a last
    report date of 0 gives true. *)
Lemma C10_counterexample :
  ~ (forall (env : Env) (w : World) (s : string),
       lastReport w = Some s ->
       ~ validNumber s ->
       lastDateOf (lastReport w) = JS.Int 0
       /\ result (shouldReportDailyStats env w)
          = Ok (DailyStatsReportInterval <? nextNow env w - 0)).
Proof.
  intros H.
  destruct (H (scenarioEnv false 86400001 None) (worldWith (Some "1x"%string))
              "1x"%string eq_refl not_validNumber_1x) as [H1 H2].
  vm_compute in H2. discriminate H2.
Qed.

(** C10 (amended). The check never fails, whatever string is persisted.
    A string from which [parseInt] reads no integer, the empty string
    among them, counts as 0.  A string that begins with the digits of an
    integer and goes on with something else counts as that integer. *)
Theorem C10_corrupt_timestamp_reads_as_zero (env : Env) (w : World) (s : string) :
  lastReport w = Some s ->
  (exists b, result (shouldReportDailyStats env w) = Ok b)
  /\ (JS.parseInt10 s = JS.NaN \/ s = ""%string ->
      lastDateOf (lastReport w) = JS.Int 0
      /\ result (shouldReportDailyStats env w)
         = Ok (DailyStatsReportInterval <? nextNow env w - 0))
  /\ (forall (t : Z) (rest : string),
        s = (JS.toString t +:+ rest)%string ->
        startsWithDigit rest = false ->
        lastDateOf (lastReport w) = JS.Int t
        /\ result (shouldReportDailyStats env w)
           = Ok (DailyStatsReportInterval <? nextNow env w - t)).
Proof.
  intros Hs. split; [| split].
  - destruct (lastDateOf_Int (lastReport w)) as [z Hz].
    rewrite (shouldReportDailyStats_value env w z Hz). by eexists.
  - intros Hnan.
    assert (Hz : lastDateOf (lastReport w) = JS.Int 0).
    { rewrite Hs. destruct Hnan as [Hnan | ->];
        [by apply lastDateOf_NaN | reflexivity]. }
    split; [exact Hz |].
    by rewrite (shouldReportDailyStats_value env w 0 Hz).
  - intros t rest -> Hrest.
    assert (Hz : lastDateOf (lastReport w) = JS.Int t).
    { rewrite Hs. by apply lastDateOf_parse, parseInt10_toString_app. }
    split; [exact Hz |].
    by rewrite (shouldReportDailyStats_value env w t Hz).
Qed.

Lemma C10_witness :
  let env := scenarioEnv false 1478000000000 None in
  let w := worldWith (Some "yesterday"%string) in
  lastReport w = Some "yesterday"%string
  /\ lastDateOf (lastReport w) = JS.Int 0
  /\ result (shouldReportDailyStats env w) = Ok true.
Proof.
  split; [reflexivity |].
  destruct (C10_corrupt_timestamp_reads_as_zero
              (scenarioEnv false 1478000000000 None)
              (worldWith (Some "yesterday"%string)) "yesterday"%string eq_refl)
    as (_ & Hnan & _).
  apply Hnan. left; reflexivity.
Defined.

End EligibilityProperties.

(* ===================================================================== *)
(** * Aggregation *)
(* ===================================================================== *)

Section Aggregation.

Import StatsStore.

Lemma getAverageLaunchStats_run (env : Env) (w : World) :
  getAverageLaunchStats env w
  = (Ok (averageLaunchStats (launches (db w))), w, [LaunchesToArray]).
Proof. by destruct w. Qed.

Lemma is_value_eq (x : JS.number) (p q : Q) :
  JS.is_value x p -> p == q -> JS.is_value x q.
Proof. destruct x; cbn; try done. intros -> ->. reflexivity. Qed.

(** Rounding depends on the value of a rational only. *)
Lemma round64_Qeq (p q : Q) : p == q -> JS.round64 p = JS.round64 q.
Proof. intros H. unfold JS.round64. by rewrite (Qred_complete p q H). Qed.

Lemma exact64_Qeq (p q : Q) : p == q -> exact64 p -> exact64 q.
Proof.
  unfold exact64. intros H Hp. rewrite <- (round64_Qeq p q H).
  by apply (is_value_eq _ p q).
Qed.

(** Adding [x] to a total that stands for [s] gives a number that stands
    for [s + x], when that sum is a binary64 number. *)
Lemma add_exact (a x s : Q) :
  a == s -> exact64 (s + x) ->
  exists p, JS.add (JS.Fin a) (JS.Fin x) = JS.Fin p /\ p == s + x.
Proof.
  intros Ha Hx. cbn [JS.add].
  rewrite (round64_Qeq (a + x) (s + x)) by (by rewrite Ha).
  unfold exact64, JS.is_value in Hx.
  destruct (JS.round64 (s + x)) as [| | |p]; try done. by exists p.
Qed.

(** The [reduce] works on each field by itself. *)
Lemma totals_fieldwise (l : list ILaunchStats) (s : ILaunchStats) :
  mainReadyTime (fold_left addLaunchStats l s)
  = fold_left JS.add (map mainReadyTime l) (mainReadyTime s)
  /\ loadTime (fold_left addLaunchStats l s)
     = fold_left JS.add (map loadTime l) (loadTime s)
  /\ rendererReadyTime (fold_left addLaunchStats l s)
     = fold_left JS.add (map rendererReadyTime l) (rendererReadyTime s).
Proof.
  revert s. induction l as [|r l IH]; intros s; [done |].
  cbn [fold_left map]. destruct (IH (addLaunchStats s r)) as (-> & -> & ->).
  done.
Qed.

(** The running total of one field stands for the exact sum as long as
    every running sum is a binary64 number. *)
Lemma total_exact (l : list Q) (a s : Q) :
  a == s -> runningSumsExact s l ->
  exists p, fold_left JS.add (map JS.Fin l) (JS.Fin a) = JS.Fin p
            /\ p == s + Qsum l.
Proof.
  revert a s. induction l as [|x l IH]; intros a s Ha Hl.
  - exists a. split; [done |]. rewrite Ha. cbn. ring.
  - destruct Hl as [Hx Hl]. cbn [map fold_left].
    destruct (add_exact a x s Ha Hx) as (p & -> & Hp).
    destruct (IH p (s + x)%Q Hp Hl) as (p' & -> & Hp').
    exists p'. split; [done |]. rewrite Hp'. cbn [Qsum fold_right].
    fold (Qsum l). ring.
Qed.

(** Division of a finite total by the length of a non-empty array. *)
Lemma div_by_length (a : Q) (n : nat) :
  (0 < n)%nat ->
  JS.div (JS.Fin a) (JS.Int (Z.of_nat n))
  = JS.round64 (a / inject_Z (Z.of_nat n)).
Proof.
  intros Hn. unfold JS.div, JS.Int, JS.Qsign, inject_Z. cbn [Qnum].
  destruct (Z.compare_spec (Z.of_nat n) 0); [lia | lia | reflexivity].
Qed.

(** One field of the average: the binary64 quotient, by the number of
    records, of the binary64 sum taken from left to right. *)
Lemma average_field (l : list Q) :
  (0 < List.length l)%nat ->
  exactlyAveraged l ->
  JS.is_value
    (JS.div (fold_left JS.add (map JS.Fin l) (JS.Int 0))
            (JS.Int (Z.of_nat (List.length l))))
    (mean l).
Proof.
  intros Hn [Hsums Hmean].
  destruct (total_exact l 0 0 (Qeq_refl 0) Hsums) as (p & Hp & Hsum).
  change (JS.Int 0) with (JS.Fin 0). rewrite Hp, div_by_length by done.
  rewrite (round64_Qeq _ (mean l)); [exact Hmean |].
  unfold mean. by rewrite Hsum, Qplus_0_l.
Qed.

Lemma mean_single (a : Q) : mean [a] == a.
Proof. unfold mean, Qsum. cbn. field. Qed.

Lemma exactlyAveraged_single (a : Q) : exact64 a -> exactlyAveraged [a].
Proof.
  intros Ha. split; [split; [| exact I] |].
  - apply (exact64_Qeq a); [ring | exact Ha].
  - apply (exact64_Qeq a); [by rewrite mean_single | exact Ha].
Qed.

(** The averages, field by field. *)
Lemma averageLaunchStats_fields (ts : list (Q * Q * Q)) :
  let avg := averageLaunchStats (map launchRecord ts) in
  let n := JS.Int (Z.of_nat (List.length ts)) in
  mainReadyTime avg
  = JS.div (fold_left JS.add (map JS.Fin (map (fun t => t.1.1) ts)) (JS.Int 0)) n
  /\ loadTime avg
     = JS.div (fold_left JS.add (map JS.Fin (map (fun t => t.1.2) ts)) (JS.Int 0)) n
  /\ rendererReadyTime avg
     = JS.div (fold_left JS.add (map JS.Fin (map (fun t => t.2) ts)) (JS.Int 0)) n.
Proof.
  intros avg n. subst avg n. unfold averageLaunchStats.
  cbn [mainReadyTime loadTime rendererReadyTime].
  destruct (totals_fieldwise (map launchRecord ts)
              {| mainReadyTime := JS.Int 0; loadTime := JS.Int 0;
                 rendererReadyTime := JS.Int 0 |}) as (-> & -> & ->).
  cbn [mainReadyTime loadTime rendererReadyTime].
  by rewrite !map_map, length_map.
Qed.

(** C4, as the spec states it, fails: the sum and the quotient are
    binary64 operations.  For the records (1,2,3), (1,2,3), (2,2,4) the
    average of the first field is 6004799503160661 / 2^52, which prints as
    1.3333333333333333, and not the arithmetic mean 4/3. *)
Lemma C4_counterexample :
  ~ (forall (env : Env) (w : World) (ts : list (Q * Q * Q)),
       launches (db w) = map launchRecord ts ->
       (0 < List.length ts)%nat ->
       exists avg,
         getAverageLaunchStats env w = (Ok avg, w, [LaunchesToArray])
         /\ JS.is_value (mainReadyTime avg) (mean (map (fun t => t.1.1) ts))
         /\ JS.is_value (loadTime avg) (mean (map (fun t => t.1.2) ts))
         /\ JS.is_value (rendererReadyTime avg) (mean (map (fun t => t.2) ts))).
Proof.
  intros H.
  destruct (H (scenarioEnv false 0 None)
              (set_launches (map launchRecord [(1, 2, 3); (1, 2, 3); (2, 2, 4)]%Q)
                 (worldWith None))
              [(1, 2, 3); (1, 2, 3); (2, 2, 4)]%Q eq_refl ltac:(cbn; lia))
    as (avg & Hrun & Hmain & _).
  rewrite getAverageLaunchStats_run in Hrun. injection Hrun as <-.
  vm_compute in Hmain. discriminate Hmain.
Qed.

(** C4 (amended). For at least one launch record with finite timings,
    each of the three averages is computed in binary64: the values of the
    field are added from left to right, starting from 0, and the total is
    divided by the number of records, every operation rounding to nearest.
    The result is exactly the arithmetic mean whenever every running sum
    and the mean itself are binary64 numbers.  That is so for a single
    record of binary64 timings, whose averages are its own values, and for
    (100,200,50), (200,300,70), (300,400,90), which give 200, 300 and 70. *)
Theorem C4_average_is_binary64_mean (env : Env) (w : World) (ts : list (Q * Q * Q)) :
  launches (db w) = map launchRecord ts ->
  (0 < List.length ts)%nat ->
  (exists avg,
     let n := JS.Int (Z.of_nat (List.length ts)) in
     getAverageLaunchStats env w = (Ok avg, w, [LaunchesToArray])
     /\ mainReadyTime avg
        = JS.div (fold_left JS.add (map JS.Fin (map (fun t => t.1.1) ts)) (JS.Int 0)) n
     /\ loadTime avg
        = JS.div (fold_left JS.add (map JS.Fin (map (fun t => t.1.2) ts)) (JS.Int 0)) n
     /\ rendererReadyTime avg
        = JS.div (fold_left JS.add (map JS.Fin (map (fun t => t.2) ts)) (JS.Int 0)) n
     /\ (exactlyAveraged (map (fun t => t.1.1) ts) ->
         JS.is_value (mainReadyTime avg) (mean (map (fun t => t.1.1) ts)))
     /\ (exactlyAveraged (map (fun t => t.1.2) ts) ->
         JS.is_value (loadTime avg) (mean (map (fun t => t.1.2) ts)))
     /\ (exactlyAveraged (map (fun t => t.2) ts) ->
         JS.is_value (rendererReadyTime avg) (mean (map (fun t => t.2) ts))))
  /\ (forall a b c : Q,
        ts = [(a, b, c)] ->
        exact64 a -> exact64 b -> exact64 c ->
        JS.is_value (mainReadyTime (averageLaunchStats (launches (db w)))) a
        /\ JS.is_value (loadTime (averageLaunchStats (launches (db w)))) b
        /\ JS.is_value (rendererReadyTime (averageLaunchStats (launches (db w)))) c)
  /\ (ts = scenarioLaunches ->
      JS.is_value (mainReadyTime (averageLaunchStats (launches (db w)))) 200
      /\ JS.is_value (loadTime (averageLaunchStats (launches (db w)))) 300
      /\ JS.is_value (rendererReadyTime (averageLaunchStats (launches (db w)))) 70).
Proof.
  intros Hl Hn.
  destruct (averageLaunchStats_fields ts) as (H1 & H2 & H3).
  cbv zeta in H1, H2, H3. rewrite <- Hl in H1, H2, H3.
  assert (Hlen : forall f : Q * Q * Q -> Q, (0 < List.length (map f ts))%nat)
    by (intros f; by rewrite length_map).
  assert (Hfield : forall f : Q * Q * Q -> Q,
            exactlyAveraged (map f ts) ->
            JS.is_value
              (JS.div (fold_left JS.add (map JS.Fin (map f ts)) (JS.Int 0))
                      (JS.Int (Z.of_nat (List.length ts))))
              (mean (map f ts))).
  { intros f Hf. pose proof (average_field (map f ts) (Hlen f) Hf) as Ha.
    by rewrite length_map in Ha. }
  split; [| split].
  - exists (averageLaunchStats (launches (db w))). cbv zeta.
    split; [apply getAverageLaunchStats_run |].
    rewrite H1, H2, H3. repeat (split; [reflexivity |]).
    repeat split; apply Hfield.
  - intros a b c -> Ha Hb Hc. rewrite H1, H2, H3. repeat split.
    + eapply is_value_eq; [apply (Hfield (fun t => t.1.1)) | apply mean_single].
      by apply exactlyAveraged_single.
    + eapply is_value_eq; [apply (Hfield (fun t => t.1.2)) | apply mean_single].
      by apply exactlyAveraged_single.
    + eapply is_value_eq; [apply (Hfield (fun t => t.2)) | apply mean_single].
      by apply exactlyAveraged_single.
  - intros ->. rewrite Hl. split; [| split]; vm_compute; reflexivity.
Qed.

Lemma C4_witness :
  let w := scenarioWorld in
  launches (db w) = map launchRecord scenarioLaunches
  /\ (0 < List.length scenarioLaunches)%nat
  /\ exactlyAveraged (map (fun t => t.1.1) scenarioLaunches)
  /\ JS.is_value (mainReadyTime (averageLaunchStats (launches (db w)))) 200
  /\ JS.is_value (loadTime (averageLaunchStats (launches (db w)))) 300
  /\ JS.is_value (rendererReadyTime (averageLaunchStats (launches (db w)))) 70.
Proof.
  assert (Hn : (0 < List.length scenarioLaunches)%nat) by (cbn; lia).
  split; [reflexivity |]. split; [exact Hn |].
  split; [vm_compute; tauto |].
  destruct (C4_average_is_binary64_mean
              (scenarioEnv false 1478000000000 None) scenarioWorld
              scenarioLaunches eq_refl Hn) as (_ & _ & Hscenario).
  exact (Hscenario eq_refl).
Defined.

(** C7: what the code does when no launch record is stored.  The totals
    are 0, the length is 0, and each average is the unguarded quotient
    [0 / 0], that is [NaN]; the report is assembled with these values and
    handed to the transport all the same. *)
Theorem C7_empty_launch_set_gives_NaN (env : Env)
    (ls : gmap string string) (t : DimensionsTable) (n : nat) :
  let w := {| localStorage := ls;
              db := {| launches := []; dailyDimensions := t |};
              clockReads := n |} in
  getAverageLaunchStats env w
  = (Ok {| mainReadyTime := JS.NaN; loadTime := JS.NaN;
           rendererReadyTime := JS.NaN |}, w, [LaunchesToArray])
  /\ JS.div (JS.Int 0) (JS.Int (Z.of_nat (List.length (launches (db w))))) = JS.NaN
  /\ dailyStatsOf env w !! "mainReadyTime"%string = Some (JS.VNumber JS.NaN)
  /\ dailyStatsOf env w !! "loadTime"%string = Some (JS.VNumber JS.NaN)
  /\ dailyStatsOf env w !! "rendererReadyTime"%string = Some (JS.VNumber JS.NaN)
  /\ requests (events (reportStats (scenarioEnv false 1478000000000 None)
                         (worldWith None)))
     = [statsRequest (dailyStatsOf (scenarioEnv false 1478000000000 None)
                        (worldWith None))].
Proof.
  intros w. split; [reflexivity |]. split; [reflexivity |].
  assert (Hlookup : forall k,
            k <> "commits"%string -> k <> "id"%string ->
            dailyStatsOf env w !! k
            = spreadLaunchStats (averageLaunchStats [])
                (<["osVersion"%string := JS.VString (osRelease env)]>
                   (<["version"%string := JS.VString (appVersion env)]> ∅)) !! k).
  { intros k Hc Hi. unfold dailyStatsOf, spreadDailyDimensions. cbn [launches db w].
    destruct (Table.first _) as [d|]; [| reflexivity].
    rewrite lookup_insert_ne by done.
    destruct (id d); [by rewrite lookup_insert_ne |reflexivity]. }
  rewrite !Hlookup by done. unfold spreadLaunchStats.
  split; [by simplify_map_eq |]. split; [by simplify_map_eq |].
  split; [by simplify_map_eq | reflexivity].
Qed.

(** C8: what the code does when no DailyCounters row was ever recorded.
    [getDailyDimensions] returns nothing, spreading it adds no property,
    and the report has no [commits] key.  With a row, the count is passed
    through unchanged. *)
Theorem C8_report_without_row_lacks_commits (env : Env)
    (ls : gmap string string) (l : list ILaunchStats) (n : nat) (k c : Z)
    (rest : list (Z * Z)) (last : Z) (inline : bool) :
  let without := {| localStorage := ls;
                    db := {| launches := l; dailyDimensions := Table.empty |};
                    clockReads := n |} in
  let with_row := {| localStorage := ls;
                     db := {| launches := l;
                              dailyDimensions :=
                                {| inlineKey := inline; rows := (k, c) :: rest;
                                   lastKey := last |} |};
                     clockReads := n |} in
  getDailyStats env without
  = (Ok (dailyStatsOf env without), without, [LaunchesToArray; DimensionsFirst])
  /\ dailyStatsOf env without !! "commits"%string = None
  /\ dailyStatsOf env with_row !! "commits"%string = Some (JS.VNumber (JS.Int c)).
Proof.
  intros without with_row. split; [reflexivity |]. split.
  - unfold dailyStatsOf, spreadDailyDimensions, spreadLaunchStats.
    cbn [Table.first Table.empty rows dailyDimensions db without].
    by simplify_map_eq.
  - unfold dailyStatsOf, spreadDailyDimensions.
    cbn [Table.first rows dailyDimensions db with_row].
    by rewrite lookup_insert_eq.
Qed.

End Aggregation.

(* ===================================================================== *)
(** * The commit counter *)
(* ===================================================================== *)

Section Commits.

Import StatsStore.

(** One call reads the first row and tries to write one row.  Without a
    row, a row with count 1 is created under a generated key.  With a row
    whose key is in-line, the row read carries its [id], the write names it
    as an explicit key and is refused; with a row whose key is out-of-line,
    the row read carries no [id] and the write creates another row. *)
Lemma recordCommit_run (env : Env) (w : World) :
  let t := dailyDimensions (db w) in
  recordCommit env w
  = match rows t with
    | [] =>
        (Ok tt,
         set_dailyDimensions
           (Table.withRows [(lastKey t + 1, 1)] (lastKey t + 1) t) w,
         [DimensionsFirst; DimensionsPut])
    | (k, c) :: rest =>
        if inlineKey t
        then (Throw "DataError", w, [DimensionsFirst; DimensionsPut])
        else (Ok tt,
              set_dailyDimensions
                (Table.withRows (Table.upsert (lastKey t + 1) (c + 1) (rows t))
                   (lastKey t + 1) t) w,
              [DimensionsFirst; DimensionsPut])
    end.
Proof.
  destruct w as [ls [l [inl r last]] n].
  destruct r as [|[k c] rest]; destruct inl; reflexivity.
Qed.

(** A first row whose key is not above the generator's stays the first
    row, unchanged, whatever the kind of key. *)
Lemma recordCommit_keeps_first (env : Env) (w : World) (k c : Z) (rest : list (Z * Z)) :
  rows (dailyDimensions (db w)) = (k, c) :: rest ->
  k <= lastKey (dailyDimensions (db w)) ->
  exists rest',
    rows (dailyDimensions (db (world (recordCommit env w)))) = (k, c) :: rest'
    /\ k <= lastKey (dailyDimensions (db (world (recordCommit env w)))).
Proof.
  intros Hrows Hk. pose proof (recordCommit_run env w) as Hrun.
  cbv zeta in Hrun. rewrite Hrun, Hrows.
  destruct (inlineKey (dailyDimensions (db w))); unfold world; cbn [fst snd].
  - exists rest. by rewrite Hrows.
  - destruct w as [ls [l [inl r last]] n]. cbn in Hrows, Hk |- *. subst r.
    cbn [Table.upsert].
    destruct (Z.ltb_spec (last + 1) k); [lia |].
    destruct (Z.eqb_spec (last + 1) k); [lia |].
    eexists. split; [reflexivity | lia].
Qed.

Lemma repeatM_S_world (m : M unit) (n : nat) (env : Env) (w : World) :
  world (repeatM (S n) m env w)
  = match result (m env w) with
    | Ok _ => world (repeatM n m env (world (m env w)))
    | Throw _ => world (m env w)
    end.
Proof.
  cbn [repeatM]. unfold bind. destruct (m env w) as [[[[]|e] w1] ev1].
  - unfold result, world; cbn [fst snd].
    by destruct (repeatM n m env w1) as [[r w2] ev2].
  - reflexivity.
Qed.

Lemma repeatM_recordCommit_first (env : Env) (n : nat) (w : World)
    (k c : Z) (rest : list (Z * Z)) :
  rows (dailyDimensions (db w)) = (k, c) :: rest ->
  k <= lastKey (dailyDimensions (db w)) ->
  exists rest',
    rows (dailyDimensions (db (world (repeatM n recordCommit env w)))) = (k, c) :: rest'.
Proof.
  revert w rest. induction n as [|n IH]; intros w rest Hrows Hk.
  - by exists rest.
  - rewrite repeatM_S_world.
    destruct (recordCommit_keeps_first env w k c rest Hrows Hk) as (rest1 & H1 & Hk1).
    destruct (result (recordCommit env w)); [by eapply IH | by exists rest1].
Qed.

(** C5: what the code does.  The first call on a store without a
    DailyCounters row creates the row with count 1.  A second call does not
    count: when the key of the table is in-line, the row read carries its
    [id], the write names it as an explicit key and fails with
    [DataError], and the table is unchanged; when the key is out-of-line,
    the row read carries no [id] and the write adds a second row, while the
    first row, the one that is read, keeps its count.  Either way the
    commit count is 1 after any number of calls. *)
Theorem C5_recordCommit_counts_once (env : Env)
    (ls : gmap string string) (l : list ILaunchStats) (n : nat)
    (inline : bool) (last : Z) (K : nat) :
  let w := {| localStorage := ls;
              db := {| launches := l;
                       dailyDimensions :=
                         {| inlineKey := inline; rows := []; lastKey := last |} |};
              clockReads := n |} in
  let once := recordCommit env w in
  let twice := repeatM 2 recordCommit env w in
  result once = Ok tt
  /\ rows (dailyDimensions (db (world once))) = [(last + 1, 1)]
  /\ result twice = (if inline then Throw "DataError" else Ok tt)
  /\ rows (dailyDimensions (db (world twice)))
     = (if inline then [(last + 1, 1)] else [(last + 1, 1); (last + 2, 2)])
  /\ commitCount (world twice) = 1
  /\ commitCount (world (repeatM (S K) recordCommit env w)) = 1.
Proof.
  intros w once twice.
  assert (Hone : world once
                 = set_dailyDimensions
                     {| inlineKey := inline; rows := [(last + 1, 1)];
                        lastKey := last + 1 |} w
                 /\ result once = Ok tt).
  { subst once. pose proof (recordCommit_run env w) as Hrun.
    cbv zeta in Hrun. by rewrite Hrun. }
  destruct Hone as [Hw1 Hr1].
  split; [exact Hr1 |]. split; [by rewrite Hw1 |].
  assert (Htwice : twice
                   = if inline
                     then (Throw "DataError", world once,
                           [DimensionsFirst; DimensionsPut; DimensionsFirst; DimensionsPut])
                     else (Ok tt,
                           set_dailyDimensions
                             {| inlineKey := false;
                                rows := [(last + 1, 1); (last + 2, 2)];
                                lastKey := last + 2 |} w,
                           [DimensionsFirst; DimensionsPut; DimensionsFirst; DimensionsPut])).
  { subst twice once. cbn [repeatM]. unfold bind at 1.
    pose proof (recordCommit_run env w) as Hrun. cbv zeta in Hrun.
    rewrite Hrun. cbn [rows dailyDimensions db w].
    unfold bind at 1. rewrite recordCommit_run. unfold world; cbn [fst snd].
    subst w. cbn [set_dailyDimensions set_db db dailyDimensions rows lastKey
                   inlineKey Table.withRows localStorage launches clockReads].
    destruct inline; cbn [Table.upsert ret app]; [reflexivity |].
    destruct (Z.ltb_spec (last + 1 + 1) (last + 1)); [lia |].
    destruct (Z.eqb_spec (last + 1 + 1) (last + 1)); [lia |].
    by replace (last + 1 + 1) with (last + 2) by lia. }
  split; [rewrite Htwice; by destruct inline |].
  split; [rewrite Htwice; destruct inline; [by rewrite Hw1 | done] |].
  split; [rewrite Htwice; destruct inline; [by rewrite Hw1 | done] |].
  rewrite repeatM_S_world. fold once. rewrite Hr1.
  destruct (repeatM_recordCommit_first env K (world once) (last + 1) 1 [])
    as (rest' & Hrows); [by rewrite Hw1 | rewrite Hw1; cbn; lia |].
  unfold commitCount, Table.first. by rewrite Hrows.
Qed.

End Commits.

(* ===================================================================== *)
(** * Further properties of the report cycle *)
(* ===================================================================== *)

Section ReportCycle.

Import StatsStore.

(** A call whose request was rejected had passed the eligibility check. *)
Lemma requested_eligible (env : Env) (w : World) (r : IHTTPRequest) :
  requests (events (reportStats env w)) = [r] ->
  devOrTest env = false
  /\ r = statsRequest (dailyStatsOf env w)
  /\ exists z, lastDateOf (lastReport w) = JS.Int z
               /\ DailyStatsReportInterval < nextNow env w - z.
Proof.
  intros Hr.
  destruct (devOrTest env) eqn:Hdev.
  { rewrite (reportStats_dev env w Hdev) in Hr. discriminate Hr. }
  destruct (lastDateOf_Int (lastReport w)) as [z Hz].
  destruct (Z.le_gt_cases (nextNow env w - z) DailyStatsReportInterval) as [Hle | Hlt].
  { rewrite (reportStats_not_eligible env w z Hdev Hz Hle) in Hr. discriminate Hr. }
  split; [done |]. split; [| by exists z].
  destruct (transport env (statsRequest (dailyStatsOf env w))) as [e|] eqn:Ht.
  - rewrite (reportStats_failure env w z e Hdev Hz Hlt Ht) in Hr.
    by injection Hr as <-.
  - rewrite (reportStats_success env w z Hdev Hz Hlt Ht) in Hr.
    by injection Hr as <-.
Qed.

(** What no call of [reportStats] touches. *)
Lemma reportStats_frame (env : Env) (w : World) :
  let o := reportStats env w in
  result o = Ok tt
  /\ dailyDimensions (db (world o)) = dailyDimensions (db w)
  /\ (launches (db (world o)) = launches (db w) \/ launches (db (world o)) = [])
  /\ (forall k, k <> LastDailyStatsReportKey ->
                localStorage (world o) !! k = localStorage w !! k).
Proof.
  intros o. subst o.
  destruct (reportStats_cases env w) as [? H | ? H | ? ? H | e ? ? H];
    rewrite H; unfold result, world; cbn [fst snd]; destruct w as [ls d n];
    cbn [tick reportedWorld db localStorage launches dailyDimensions];
    (split; [done |]); (split; [done |]); (split; [by auto |]); try done.
  intros k Hk. by rewrite lookup_insert_ne.
Qed.

(** X1. A call of [reportStats] hands at most one request to the
    transport, whatever the environment, the world and the answer of the
    transport. *)
Theorem X1_reportStats_sends_at_most_once (env : Env) (w : World) :
  (List.length (requests (events (reportStats env w))) <= 1)%nat.
Proof.
  destruct (reportStats_cases env w) as [? H | ? H | ? ? H | e ? ? H];
    rewrite H; cbn; lia.
Qed.

(** X2. A call of [reportStats] changes what persists only when its
    request was accepted: otherwise [localStorage] and the database are
    what they were. *)
Theorem X2_state_changes_only_on_success (env : Env) (w : World) :
  transportSucceeded env w
  \/ (localStorage (world (reportStats env w)) = localStorage w
      /\ db (world (reportStats env w)) = db w).
Proof.
  destruct (reportStats_cases env w) as [? H | ? H | ? Ht H | e ? ? H].
  - right. rewrite H. by destruct w.
  - right. rewrite H. by destruct w.
  - left. exists (statsRequest (dailyStatsOf env w)). by rewrite H.
  - right. rewrite H. by destruct w.
Qed.

(** X3. No call of [reportStats] changes the table of daily counters or a
    key of [localStorage] other than the last-report key, and the launch
    records are afterwards either all there or all gone. *)
Theorem X3_reportStats_frame (env : Env) (w : World) :
  let o := reportStats env w in
  dailyDimensions (db (world o)) = dailyDimensions (db w)
  /\ (launches (db (world o)) = launches (db w) \/ launches (db (world o)) = [])
  /\ (forall k, k <> LastDailyStatsReportKey ->
                localStorage (world o) !! k = localStorage w !! k).
Proof. intros o. apply (reportStats_frame env w). Qed.

(** X4. In a call of [reportStats] every action that changes what
    persists comes after the request, and the transport accepted that
    request. *)
Theorem X4_no_mutation_before_accepted_request (env : Env) (w : World)
    (pre post : list Event) (e : Event) :
  events (reportStats env w) = pre ++ e :: post ->
  mutating e = true ->
  exists r, In (ProxyRequest r) pre /\ transport env r = None.
Proof.
  intros Hev Hmut.
  destruct (reportStats_cases env w) as [? H | ? H | ? Ht H | e' ? ? H];
    rewrite H in Hev; unfold events in Hev; cbn [snd] in Hev.
  all: try (exists (statsRequest (dailyStatsOf env w)); split; [| exact Ht]).
  all: repeat (match goal with
               | Hl : _ = ?p ++ _ :: _ |- _ =>
                   destruct p as [|? p]; cbn in Hl; simplify_eq
               end; try discriminate Hmut; try (cbn; tauto)).
Qed.

Lemma X4_witness :
  let env := scenarioEnv false 1478000000000 None in
  exists pre post r,
    events (reportStats env scenarioWorld) = pre ++ LaunchesClear :: post
    /\ In (ProxyRequest r) pre /\ transport env r = None.
Proof.
  eexists (firstn 7 (events (reportStats (scenarioEnv false 1478000000000 None)
                               scenarioWorld))), _.
  assert (Hev : events (reportStats (scenarioEnv false 1478000000000 None) scenarioWorld)
                = firstn 7 (events (reportStats (scenarioEnv false 1478000000000 None)
                                      scenarioWorld))
                  ++ LaunchesClear
                     :: [LocalStorageSet LastDailyStatsReportKey "1478000000001"])
    by reflexivity.
  destruct (X4_no_mutation_before_accepted_request
              (scenarioEnv false 1478000000000 None) scenarioWorld _ _ _ Hev eq_refl)
    as (r & Hin & Hok).
  exists r. split; [exact Hev |]. split; [exact Hin | exact Hok].
Defined.

(** X5. When the interval has not elapsed since the persisted time, a
    call of [reportStats] outside dev and test does the check and nothing
    else: it reads the persisted value and the clock, never the database,
    sends nothing, and leaves what persists as it was. *)
Theorem X5_not_eligible_only_checks (env : Env) (w : World) (t : Z) :
  devOrTest env = false ->
  persistedTimestamp w t ->
  nextNow env w <= t + DailyStatsReportInterval ->
  events (reportStats env w) = [LocalStorageGet LastDailyStatsReportKey; DateNow]
  /\ result (reportStats env w) = Ok tt
  /\ localStorage (world (reportStats env w)) = localStorage w
  /\ db (world (reportStats env w)) = db w.
Proof.
  intros Hdev Hp Hle.
  rewrite (reportStats_not_eligible env w t Hdev (lastDateOf_persisted w t Hp))
    by lia.
  by destruct w.
Qed.

Lemma X5_witness :
  let env := scenarioEnv false 86400000 None in
  devOrTest env = false
  /\ persistedTimestamp scenarioWorld 0
  /\ events (reportStats env scenarioWorld)
     = [LocalStorageGet LastDailyStatsReportKey; DateNow]
  /\ db (world (reportStats env scenarioWorld)) = db scenarioWorld.
Proof.
  assert (Hp : persistedTimestamp scenarioWorld 0) by (right; reflexivity).
  split; [reflexivity |]. split; [exact Hp |].
  destruct (X5_not_eligible_only_checks (scenarioEnv false 86400000 None)
              scenarioWorld 0 eq_refl Hp) as (Hev & _ & _ & Hdb).
  - vm_compute. discriminate.
  - split; [exact Hev | exact Hdb].
Defined.

(** X6. At most one report per interval: after a call whose request was
    accepted, a further call, in any environment, whose check reads the
    clock no later than the interval after the captured [now] sends nothing
    and leaves what persists as it is. *)
Theorem X6_no_second_report_within_interval (env env' : Env) (w : World) :
  transportSucceeded env w ->
  let w' := world (reportStats env w) in
  nextNow env' w' <= capturedNow env w + DailyStatsReportInterval ->
  requests (events (reportStats env' w')) = []
  /\ localStorage (world (reportStats env' w')) = localStorage w'
  /\ db (world (reportStats env' w')) = db w'.
Proof.
  intros Hok w' Hle.
  pose proof (lastDateOf_reported env w Hok) as Hz. fold w' in Hz.
  destruct (devOrTest env') eqn:Hdev.
  - rewrite (reportStats_dev env' w' Hdev). done.
  - rewrite (reportStats_not_eligible env' w' _ Hdev Hz) by lia.
    by destruct w'.
Qed.

Lemma X6_witness :
  let env := scenarioEnv false 1478000000000 None in
  let env' := scenarioEnv false (1478000000000 + 3600000) None in
  transportSucceeded env scenarioWorld
  /\ requests (events (reportStats env' (world (reportStats env scenarioWorld)))) = [].
Proof.
  assert (Hok : transportSucceeded (scenarioEnv false 1478000000000 None) scenarioWorld).
  { eexists; split; reflexivity. }
  split; [exact Hok |].
  apply (X6_no_second_report_within_interval
           (scenarioEnv false 1478000000000 None)
           (scenarioEnv false (1478000000000 + 3600000) None)
           scenarioWorld Hok).
  vm_compute. discriminate.
Defined.

(** X7. A rejected report is retried with the same data: after a call
    whose request was rejected, the next call outside dev and test, with
    the same app version and OS release and a clock that has not gone
    back, sends one request, the same as the rejected one. *)
Theorem X7_retry_after_failure_resends (env env' : Env) (w : World) :
  transportFailed env w ->
  let w' := world (reportStats env w) in
  devOrTest env' = false ->
  appVersion env' = appVersion env ->
  osRelease env' = osRelease env ->
  nextNow env w <= nextNow env' w' ->
  requests (events (reportStats env' w'))
  = requests (events (reportStats env w)).
Proof.
  intros Hko w' Hdev Hv Hos Hclock.
  destruct (transportFailed_inv env w Hko) as (_ & Hw & _).
  destruct Hko as (r & e & Hr & _).
  destruct (requested_eligible env w r Hr) as (_ & -> & z & Hz & Hlt).
  rewrite Hr.
  assert (Hz' : lastDateOf (lastReport w') = JS.Int z).
  { subst w'. rewrite Hw. by destruct w. }
  assert (Hstats : dailyStatsOf env' w' = dailyStatsOf env w).
  { subst w'. rewrite Hw. unfold dailyStatsOf. rewrite Hv, Hos. by destruct w. }
  destruct (transport env' (statsRequest (dailyStatsOf env' w'))) as [e'|] eqn:Ht.
  - rewrite (reportStats_failure env' w' z e' Hdev Hz') by (done || lia).
    cbn. by rewrite Hstats.
  - rewrite (reportStats_success env' w' z Hdev Hz') by (done || lia).
    cbn. by rewrite Hstats.
Qed.

Lemma X7_witness :
  let env := scenarioEnv false 1478000000000 (Some "offline"%string) in
  let env' := scenarioEnv false 1478000060000 None in
  transportFailed env scenarioWorld
  /\ requests (events (reportStats env' (world (reportStats env scenarioWorld))))
     = requests (events (reportStats env scenarioWorld)).
Proof.
  assert (Hko : transportFailed
                  (scenarioEnv false 1478000000000 (Some "offline"%string))
                  scenarioWorld).
  { do 2 eexists; split; reflexivity. }
  split; [exact Hko |].
  apply (X7_retry_after_failure_resends
           (scenarioEnv false 1478000000000 (Some "offline"%string))
           (scenarioEnv false 1478000060000 None)
           scenarioWorld Hko); try reflexivity.
  vm_compute. discriminate.
Defined.

(** X8. Only a non-empty [TEST_ENV] counts as test mode.  With any
    non-empty value, "0" and "false" included, a call of [reportStats] does
    nothing, whatever [__DEV__] is; with [TEST_ENV] set to the empty string
    the call runs exactly as if the variable were not set. *)
Theorem X8_TEST_ENV_truthiness (env : Env) (w : World) (c : ascii) (s : string) :
  reportStats (withTestEnv (Some (String c s)) env) w = (Ok tt, w, [])
  /\ reportStats (withTestEnv (Some ""%string) env) w
     = reportStats (withTestEnv None env) w.
Proof.
  split.
  - apply reportStats_dev. unfold devOrTest. cbn. apply orb_true_r.
  - set (e1 := withTestEnv (Some ""%string) env).
    set (e2 := withTestEnv None env).
    destruct (devOrTest e2) eqn:Hdev.
    { by rewrite (reportStats_dev e1 w Hdev), (reportStats_dev e2 w Hdev). }
    destruct (lastDateOf_Int (lastReport w)) as [z Hz].
    destruct (Z.le_gt_cases (nextNow e2 w - z) DailyStatsReportInterval)
      as [Hle | Hlt].
    { by rewrite (reportStats_not_eligible e1 w z Hdev Hz Hle),
                 (reportStats_not_eligible e2 w z Hdev Hz Hle). }
    destruct (transport e2 (statsRequest (dailyStatsOf e2 w))) as [e|] eqn:Ht.
    + by rewrite (reportStats_failure e1 w z e Hdev Hz Hlt Ht),
                 (reportStats_failure e2 w z e Hdev Hz Hlt Ht).
    + by rewrite (reportStats_success e1 w z Hdev Hz Hlt Ht),
                 (reportStats_success e2 w z Hdev Hz Hlt Ht).
Qed.

End ReportCycle.

(* ===================================================================== *)
(** * Sequences of calls *)
(* ===================================================================== *)

Section Sequences.

Import StatsStore.

Lemma recordLaunchStats_run (stats : ILaunchStats) (env : Env) (w : World) :
  recordLaunchStats stats env w
  = (Ok tt, set_launches (launches (db w) ++ [stats]) w, [LaunchesAdd]).
Proof. by destruct w. Qed.

(** Recording launches appends them, in order, and touches nothing else. *)
Lemma runOps_recordLaunchStats (l : list ILaunchStats) (env : Env) (w : World) :
  runOps (map OpRecordLaunchStats l) env w
  = (Ok tt, set_launches (launches (db w) ++ l) w, map (fun _ => LaunchesAdd) l).
Proof.
  revert w. induction l as [|s l IH]; intros w.
  - cbn. destruct w as [ls [la t] n]. cbn. by rewrite app_nil_r.
  - cbn [map runOps runOp]. unfold bind.
    rewrite recordLaunchStats_run, IH.
    destruct w as [ls [la t] n]. cbn. by rewrite <- app_assoc.
Qed.

(** X12. No launch is counted in two reports: after a call of
    [reportStats] whose request was accepted, and then the recording of
    some launches, the stored launches are exactly the recorded ones, in
    order, and [getAverageLaunchStats] averages them alone. *)
Theorem X12_launches_after_report_are_averaged_alone
    (env env' env'' : Env) (w : World) (records : list ILaunchStats) :
  transportSucceeded env w ->
  let w1 := world (reportStats env w) in
  let w2 := world (runOps (map OpRecordLaunchStats records) env' w1) in
  launches (db w2) = records
  /\ getAverageLaunchStats env'' w2
     = (Ok (averageLaunchStats records), w2, [LaunchesToArray]).
Proof.
  intros Hok w1 w2.
  destruct (transportSucceeded_inv env w Hok) as (_ & Hw & _).
  assert (Hl : launches (db w2) = records).
  { subst w2. rewrite runOps_recordLaunchStats. subst w1. by rewrite Hw. }
  split; [exact Hl |]. by rewrite getAverageLaunchStats_run, Hl.
Qed.

Lemma X12_witness :
  let env := scenarioEnv false 1478000000000 None in
  let records := [launchRecord (10, 20, 30)%Q; launchRecord (30, 40, 50)%Q] in
  let w1 := world (reportStats env scenarioWorld) in
  let w2 := world (runOps (map OpRecordLaunchStats records) env w1) in
  transportSucceeded env scenarioWorld
  /\ launches (db w2) = records
  /\ getAverageLaunchStats env w2
     = (Ok (averageLaunchStats records), w2, [LaunchesToArray]).
Proof.
  assert (Hok : transportSucceeded (scenarioEnv false 1478000000000 None) scenarioWorld).
  { eexists; split; reflexivity. }
  split; [exact Hok |].
  exact (X12_launches_after_report_are_averaged_alone
           (scenarioEnv false 1478000000000 None)
           (scenarioEnv false 1478000000000 None)
           (scenarioEnv false 1478000000000 None)
           scenarioWorld
           [launchRecord (10, 20, 30)%Q; launchRecord (30, 40, 50)%Q] Hok).
Defined.

End Sequences.

(* ===================================================================== *)
(** * The contents of a report *)
(* ===================================================================== *)

Section ReportContents.

Import StatsStore.

Local Set Warnings "-clear-no-such-hyp".

Lemma add_NaN_r (x : JS.number) : JS.add x JS.NaN = JS.NaN.
Proof. by destruct x. Qed.

(** Once a running total is [NaN], or when a record to come holds [NaN],
    the total is [NaN]. *)
Lemma totals_NaN (f : ILaunchStats -> JS.number) :
  (forall a b, f (addLaunchStats a b) = JS.add (f a) (f b)) ->
  forall (l : list ILaunchStats) (s : ILaunchStats),
    f s = JS.NaN \/ (exists r, In r l /\ f r = JS.NaN) ->
    f (fold_left addLaunchStats l s) = JS.NaN.
Proof.
  intros Hf. induction l as [|x l IH]; intros s H; cbn [fold_left].
  - destruct H as [H | (r & [] & _)]. exact H.
  - apply IH. destruct H as [H | (r & [<- | Hin] & Hr)].
    + left. by rewrite Hf, H.
    + left. by rewrite Hf, Hr, add_NaN_r.
    + right. by exists r.
Qed.

(** X14. One launch record with [NaN] in a timing makes the average of
    that timing [NaN], however many other records there are. *)
Theorem X14_NaN_record_poisons_average (l : list ILaunchStats) (r : ILaunchStats) :
  In r l ->
  (mainReadyTime r = JS.NaN -> mainReadyTime (averageLaunchStats l) = JS.NaN)
  /\ (loadTime r = JS.NaN -> loadTime (averageLaunchStats l) = JS.NaN)
  /\ (rendererReadyTime r = JS.NaN ->
      rendererReadyTime (averageLaunchStats l) = JS.NaN).
Proof.
  intros Hin. unfold averageLaunchStats.
  cbn [mainReadyTime loadTime rendererReadyTime].
  repeat split; intros Hr.
  - rewrite (totals_NaN mainReadyTime); [reflexivity | by intros [] [] |].
    right. by exists r.
  - rewrite (totals_NaN loadTime); [reflexivity | by intros [] [] |].
    right. by exists r.
  - rewrite (totals_NaN rendererReadyTime); [reflexivity | by intros [] [] |].
    right. by exists r.
Qed.

Lemma X14_witness :
  let bad := {| mainReadyTime := JS.NaN; loadTime := JS.Int 200;
                rendererReadyTime := JS.Int 50 |} in
  let l := [launchRecord (100, 200, 50)%Q; bad; launchRecord (300, 400, 90)%Q] in
  In bad l /\ mainReadyTime (averageLaunchStats l) = JS.NaN.
Proof.
  assert (Hin : In {| mainReadyTime := JS.NaN; loadTime := JS.Int 200;
                      rendererReadyTime := JS.Int 50 |}
                  [launchRecord (100, 200, 50)%Q;
                   {| mainReadyTime := JS.NaN; loadTime := JS.Int 200;
                      rendererReadyTime := JS.Int 50 |};
                   launchRecord (300, 400, 90)%Q]).
  { right; left; reflexivity. }
  split; [exact Hin |].
  exact (proj1 (X14_NaN_record_poisons_average _ _ Hin) eq_refl).
Defined.

(** The five keys that every report carries. *)
Lemma dailyStatsOf_lookups (env : Env) (w : World) :
  dailyStatsOf env w !! "version"%string = Some (JS.VString (appVersion env))
  /\ dailyStatsOf env w !! "osVersion"%string = Some (JS.VString (osRelease env))
  /\ dailyStatsOf env w !! "mainReadyTime"%string
     = Some (JS.VNumber (mainReadyTime (averageLaunchStats (launches (db w)))))
  /\ dailyStatsOf env w !! "loadTime"%string
     = Some (JS.VNumber (loadTime (averageLaunchStats (launches (db w)))))
  /\ dailyStatsOf env w !! "rendererReadyTime"%string
     = Some (JS.VNumber (rendererReadyTime (averageLaunchStats (launches (db w))))).
Proof.
  unfold dailyStatsOf, spreadDailyDimensions, spreadLaunchStats.
  destruct (Table.first (dailyDimensions (db w))) as [[[k|] c]|]; cbn [id commits];
    repeat split; by rewrite ?lookup_insert_ne, lookup_insert_eq by done.
Qed.

(** X15. The report that [getDailyStats] assembles always carries the app
    version, the OS release and the three averages under their keys (the
    counters spread last never replace them), it has no key besides these,
    [commits] and [id], and assembling it changes nothing. *)
Theorem X15_report_keys (env : Env) (w : World) :
  getDailyStats env w
  = (Ok (dailyStatsOf env w), w, [LaunchesToArray; DimensionsFirst])
  /\ dailyStatsOf env w !! "version"%string = Some (JS.VString (appVersion env))
  /\ dailyStatsOf env w !! "osVersion"%string = Some (JS.VString (osRelease env))
  /\ dailyStatsOf env w !! "mainReadyTime"%string
     = Some (JS.VNumber (mainReadyTime (averageLaunchStats (launches (db w)))))
  /\ dailyStatsOf env w !! "loadTime"%string
     = Some (JS.VNumber (loadTime (averageLaunchStats (launches (db w)))))
  /\ dailyStatsOf env w !! "rendererReadyTime"%string
     = Some (JS.VNumber (rendererReadyTime (averageLaunchStats (launches (db w)))))
  /\ dom (dailyStatsOf env w)
     ⊆ ({["version"; "osVersion"; "mainReadyTime"; "loadTime";
          "rendererReadyTime"; "commits"; "id"]} : gset string).
Proof.
  split; [apply getDailyStats_run |].
  destruct (dailyStatsOf_lookups env w) as (H1 & H2 & H3 & H4 & H5).
  repeat (split; [assumption |]).
  unfold dailyStatsOf, spreadDailyDimensions, spreadLaunchStats.
  destruct (Table.first (dailyDimensions (db w))) as [[[k|] c]|]; cbn [id commits];
    rewrite !dom_insert_L, dom_empty_L; set_solver.
Qed.

(** X16. Whatever a call of [reportStats] hands to the transport is a POST
    to the stats endpoint, announced as JSON, whose body is the report
    assembled from the launches and counters as they were before the
    call. *)
Theorem X16_request_is_snapshot_before_call (env : Env) (w : World) (r : IHTTPRequest) :
  In r (requests (events (reportStats env w))) ->
  url r = StatsEndpoint
  /\ method r = "POST"%string
  /\ headers r = [("Content-Type", "application/json")]%string
  /\ body r = dailyStatsOf env w.
Proof.
  intros Hin.
  destruct (reportStats_cases env w) as [? H | ? H | ? ? H | e ? ? H];
    rewrite H in Hin; cbn in Hin; try done;
    by destruct Hin as [<- | []].
Qed.

Lemma X16_witness :
  let env := scenarioEnv false 1478000000000 None in
  exists r,
    In r (requests (events (reportStats env scenarioWorld)))
    /\ url r = StatsEndpoint
    /\ body r = dailyStatsOf env scenarioWorld.
Proof.
  exists (statsRequest (dailyStatsOf (scenarioEnv false 1478000000000 None) scenarioWorld)).
  assert (Hin : In (statsRequest (dailyStatsOf (scenarioEnv false 1478000000000 None)
                                    scenarioWorld))
                  (requests (events (reportStats (scenarioEnv false 1478000000000 None)
                                       scenarioWorld)))).
  { left; reflexivity. }
  split; [exact Hin |].
  destruct (X16_request_is_snapshot_before_call _ _ _ Hin) as (Hu & _ & _ & Hb).
  split; [exact Hu | exact Hb].
Defined.

(** X17. The division by zero is reached in a running session: after a
    call of [reportStats] whose request was accepted, a call outside dev
    and test once the interval has passed, with no launch recorded in
    between, sends a request whose three timings are [NaN]. *)
Theorem X17_second_report_without_launch_sends_NaN (env env' : Env) (w : World) :
  transportSucceeded env w ->
  let w' := world (reportStats env w) in
  devOrTest env' = false ->
  capturedNow env w + DailyStatsReportInterval < nextNow env' w' ->
  exists r,
    requests (events (reportStats env' w')) = [r]
    /\ body r !! "mainReadyTime"%string = Some (JS.VNumber JS.NaN)
    /\ body r !! "loadTime"%string = Some (JS.VNumber JS.NaN)
    /\ body r !! "rendererReadyTime"%string = Some (JS.VNumber JS.NaN).
Proof.
  intros Hok w' Hdev Hlt.
  pose proof (lastDateOf_reported env w Hok) as Hz. fold w' in Hz.
  assert (Hl : launches (db w') = []).
  { subst w'. by destruct (transportSucceeded_inv env w Hok) as (_ & -> & _). }
  exists (statsRequest (dailyStatsOf env' w')). split.
  - destruct (transport env' (statsRequest (dailyStatsOf env' w'))) as [e|] eqn:Ht.
    + by rewrite (reportStats_failure env' w' _ e Hdev Hz) by (done || lia).
    + by rewrite (reportStats_success env' w' _ Hdev Hz) by (done || lia).
  - destruct (dailyStatsOf_lookups env' w') as (_ & _ & H3 & H4 & H5).
    rewrite Hl in H3, H4, H5. cbn [body statsRequest].
    by rewrite H3, H4, H5.
Qed.

Lemma X17_witness :
  let env := scenarioEnv false 1478000000000 None in
  let env' := scenarioEnv false (1478000000000 + 86400000) None in
  transportSucceeded env scenarioWorld
  /\ exists r,
       requests (events (reportStats env' (world (reportStats env scenarioWorld)))) = [r]
       /\ body r !! "mainReadyTime"%string = Some (JS.VNumber JS.NaN).
Proof.
  assert (Hok : transportSucceeded (scenarioEnv false 1478000000000 None) scenarioWorld).
  { eexists; split; reflexivity. }
  split; [exact Hok |].
  destruct (X17_second_report_without_launch_sends_NaN
              (scenarioEnv false 1478000000000 None)
              (scenarioEnv false (1478000000000 + 86400000) None)
              scenarioWorld Hok eq_refl) as (r & Hr & Hm & _).
  - vm_compute. reflexivity.
  - exists r. split; [exact Hr | exact Hm].
Defined.

End ReportContents.
